(** * Servidor de análise de sentimentos: post-processing of the classifier output

    A shallow embedding of [servidor_sentimentos.py]: the lazily initialised
    global [classificador], the translation table [TRADUCAO_EMOCOES] and the
    three tools [analisar_sentimento], [analisar_sentimento_detalhado] and
    [comparar_sentimentos].

    Python floats are IEEE 754 binary64 numbers and are modelled by Rocq's
    primitive floats, whose comparisons behave like Python's (every comparison
    with a NaN is false).  Python [int]s are [Z], [str]s are [string], and the
    response dictionaries are values of [PyVal] with their keys in insertion
    order.  The classifier, the constructor [pipeline] of its library, the
    builtins [round] and [str] on floats and [json.dumps] are not code of the
    repository: they are parameters of the development. *)

From Stdlib Require Import ZArith List String DecimalString Floats Lia.
From Stdlib Require Import Sorting.Sorted Sorting.Permutation.
From stdpp Require Import gmap strings.
Import ListNotations.

#[local] Set Warnings "-inexact-float,-register-all".
#[local] Open Scope string_scope.

(* ===================================================================== *)
(** * Python values, exceptions and builtins *)
(* ===================================================================== *)

Module Python.

(** The exceptions that reach a tool: the [IndexError] of an item out of
    range, and whatever code outside the repository raises, named by its
    class. *)
Inductive Excecao : Set :=
| IndexError
| ErroExterno (classe : string).

(** The outcome of evaluating an expression: a value or a raised exception. *)
Inductive Res (A : Type) : Type :=
| Ok (a : A)
| Raise (e : Excecao).
Arguments Ok {A} a.
Arguments Raise {A} e.

(** The objects the tools build and hand to [json.dumps]: [int], [float],
    [str], [list] and [dict] (keys in insertion order). *)
Inductive PyVal : Type :=
| PyInt (n : Z)
| PyFloat (x : float)
| PyStr (s : string)
| PyList (l : list PyVal)
| PyDict (d : list (string * PyVal)).

(** Reading [d[k]] back from a dictionary value. *)
Fixpoint assoc (k : string) (d : list (string * PyVal)) : option PyVal :=
  match d with
  | [] => None
  | (k', v) :: d' => if String.eqb k k' then Some v else assoc k d'
  end.

Definition campo (k : string) (v : PyVal) : option PyVal :=
  match v with
  | PyDict d => assoc k d
  | _ => None
  end.

(** [len(l)] *)
Definition len {A : Type} (l : list A) : Z := Z.of_nat (length l).

(** [l[:k]]: a negative [k] counts from the end of the list. *)
Definition slice_ate {A : Type} (l : list A) (k : Z) : list A :=
  if (k <? 0)%Z then firstn (Z.to_nat (Z.max 0 (len l + k))) l
  else firstn (Z.to_nat k) l.

(** [l[i]] for a non-negative index: [IndexError] when out of range. *)
Definition item {A : Type} (l : list A) (i : nat) : Res A :=
  match nth_error l i with
  | Some x => Ok x
  | None => Raise IndexError
  end.

(** [m.get(k, d)] *)
Definition dict_get (m : gmap string string) (k d : string) : string :=
  match m !! k with
  | Some v => v
  | None => d
  end.

(** [sorted(l, key=key, reverse=True)] for float keys.  The builtin is a stable
    sort that compares keys with [<] only; with [reverse=True] elements with
    equal keys keep their original order.  It is modelled by the stable
    insertion sort below: [x], which precedes every element of [l] in the
    input, moves behind [y] only when [key x < key y].  On keys that are not
    NaN the result is the one the builtin specifies: a permutation of the
    input ([sorted_reverse_perm]), in non-increasing order
    ([sorted_reverse_sorted]), stable ([sorted_reverse_stable]). *)
Section Sorted.
Context {A : Type} (key : A -> float).

Fixpoint inserir (x : A) (l : list A) : list A :=
  match l with
  | [] => [x]
  | y :: l' => if (key x <? key y)%float then y :: inserir x l' else x :: l
  end.

Definition sorted_reverse (l : list A) : list A := fold_right inserir [] l.
End Sorted.

End Python.
Import Python.

(* ===================================================================== *)
(** * The server *)
(* ===================================================================== *)

Module Servidor.

(** One element of the classifier's answer: [{'label': ..., 'score': ...}]. *)
Record Emocao : Type := { label : string; score : float }.

(** The object built by [pipeline(...)]; objects built by different calls are
    different objects. *)
Record Pipeline : Type := { pipeline_id : nat }.

(** The process: the module global [classificador], with the number of
    [pipeline(...)] constructions so far and the lines printed. *)
Record Processo : Type := {
  classificador : option Pipeline;
  pipelines_criados : nat;
  stdout : list string
}.

(** The state of the process when the module has just been imported. *)
Definition processo_inicial : Processo :=
  {| classificador := None; pipelines_criados := 0; stdout := [] |}.

(** Computations that read and write the process and may raise. *)
Definition M (A : Type) : Type := Processo -> Res A * Processo.

Definition ret {A : Type} (a : A) : M A := fun g => (Ok a, g).

Definition bind {A B : Type} (m : M A) (k : A -> M B) : M B :=
  fun g =>
    match m g with
    | (Ok a, g') => k a g'
    | (Raise e, g') => (Raise e, g')
    end.

Definition lift {A : Type} (r : Res A) : M A := fun g => (r, g).

Notation "'do' x <- m ; k" := (bind m (fun x => k))
  (at level 10, x name, m at level 100, k at level 200).

Definition TRADUCAO_EMOCOES : gmap string string :=
  list_to_map [
    ("admiration", "admiração");
    ("amusement", "diversão");
    ("anger", "raiva");
    ("annoyance", "irritação");
    ("approval", "aprovação");
    ("caring", "cuidado");
    ("confusion", "confusão");
    ("curiosity", "curiosidade");
    ("desire", "desejo");
    ("disappointment", "decepção");
    ("disapproval", "desaprovação");
    ("disgust", "nojo");
    ("embarrassment", "vergonha");
    ("excitement", "empolgação");
    ("fear", "medo");
    ("gratitude", "gratidão");
    ("grief", "tristeza profunda");
    ("joy", "alegria");
    ("love", "amor");
    ("nervousness", "nervosismo");
    ("optimism", "otimismo");
    ("pride", "orgulho");
    ("realization", "percepção");
    ("relief", "alívio");
    ("remorse", "remorso");
    ("sadness", "tristeza");
    ("surprise", "surpresa");
    ("neutral", "neutro")
  ].

(** [inicializar_modelo()].  [pipeline g] is the outcome of the call
    [pipeline(...)] made in the state [g] of the process (the first message
    is printed by then): the new object, or the exception the library
    raises.  An exception leaves the function before the assignment, so
    that [classificador] stays [None] and the next call tries again. *)
Definition inicializar_modelo (pipeline : Processo -> Res Pipeline) : M Pipeline :=
  fun g =>
    match classificador g with
    | None =>
        let g1 :=
          {| classificador := None;
             pipelines_criados := pipelines_criados g;
             stdout := stdout g ++
               ["Carregando modelo GoEmotions... (pode levar alguns segundos)"] |} in
        match pipeline g1 with
        | Ok novo =>
            (Ok novo,
             {| classificador := Some novo;
                pipelines_criados := S (pipelines_criados g1);
                stdout := stdout g1 ++ ["Modelo carregado com sucesso!"] |})
        | Raise e => (Raise e, g1)
        end
    | Some c => (Ok c, g)
    end.

(** A call [pipeline(...)] that returns: a new object, different from the
    ones built before. *)
Definition pipeline_novo (g : Processo) : Res Pipeline :=
  Ok {| pipeline_id := pipelines_criados g |}.

Section Ferramentas.

(** The outcome of [pipeline(task="text-classification", ...)], see
    [inicializar_modelo]. *)
Variable pipeline : Processo -> Res Pipeline.

(** [inferir texto] is [modelo(texto)[0]]: the scored labels the classifier
    gives for [texto], the same for every pipeline object. *)
Variable inferir : string -> list Emocao.

(** The builtin [round(x, ndigits)] on floats. *)
Variable py_round : float -> Z -> float.

(** The text of a float in an f-string, [f"{x}"]. *)
Variable py_str : float -> string.

(** [json.dumps(v, indent=2, ensure_ascii=False)] *)
Variable json_dumps : PyVal -> string.

Definition chamar (modelo : Pipeline) (texto : string) : list Emocao :=
  inferir texto.

(** [TRADUCAO_EMOCOES.get(r['label'], r['label'])] *)
Definition traducao (r : Emocao) : string :=
  dict_get TRADUCAO_EMOCOES (label r) (label r).

(** [round(r['score'] * 100, 2)]; the [int] 100 is converted to a float. *)
Definition probabilidade (r : Emocao) : float :=
  py_round (score r * 100)%float 2.

(** [f"{round(r['score'] * 100, 2)}%"] *)
Definition porcentagem (r : Emocao) : string :=
  py_str (probabilidade r) ++ "%".

(** ** Tool 1 *)

Definition emocao_top (r : Emocao) : PyVal :=
  PyDict [
    ("emocao", PyStr (traducao r));
    ("emocao_original", PyStr (label r));
    ("probabilidade", PyFloat (probabilidade r));
    ("porcentagem", PyStr (porcentagem r))
  ].

(** The dictionary [resposta] of [analisar_sentimento]. *)
Definition analisar_sentimento_resposta (texto : string) (top_k : Z) : M PyVal :=
  do modelo <- inicializar_modelo pipeline;
  let resultados := chamar modelo texto in
  let resultados_ordenados := sorted_reverse score resultados in
  let top_resultados := slice_ate resultados_ordenados top_k in
  let top_emocoes := map emocao_top top_resultados in
  do d1 <- lift (item top_resultados 0);
  do d2 <- lift (item top_resultados 0);
  do d3 <- lift (item top_resultados 0);
  ret (PyDict [
    ("texto_analisado", PyStr texto);
    ("total_emocoes", PyInt (len resultados));
    ("top_emocoes", PyList top_emocoes);
    ("emocao_dominante", PyStr (traducao d1));
    ("emocao_dominante_original", PyStr (label d2));
    ("confianca_dominante", PyStr (porcentagem d3))
  ]).

Definition analisar_sentimento (texto : string) (top_k : Z) : M string :=
  do resposta <- analisar_sentimento_resposta texto top_k;
  ret (json_dumps resposta).

(** ** Tool 2 *)

(** ["alta" if r['score'] >= 0.5 else "média" if r['score'] >= 0.1 else "baixa"] *)
Definition nivel (r : Emocao) : string :=
  if (0.5 <=? score r)%float then "alta"
  else if (0.1 <=? score r)%float then "média"
  else "baixa".

Definition emocao_detalhada (r : Emocao) : PyVal :=
  PyDict [
    ("emocao", PyStr (traducao r));
    ("emocao_original", PyStr (label r));
    ("probabilidade", PyFloat (probabilidade r));
    ("porcentagem", PyStr (porcentagem r));
    ("nivel", PyStr (nivel r))
  ].

(** The dictionary [resposta] of [analisar_sentimento_detalhado]. *)
Definition analisar_sentimento_detalhado_resposta (texto : string) : M PyVal :=
  do modelo <- inicializar_modelo pipeline;
  let resultados := chamar modelo texto in
  let resultados_ordenados := sorted_reverse score resultados in
  let alta_probabilidade :=
    List.filter (fun r => (0.5 <=? score r)%float) resultados_ordenados in
  let media_probabilidade :=
    List.filter (fun r => (0.1 <=? score r)%float && (score r <? 0.5)%float)
                resultados_ordenados in
  let baixa_probabilidade :=
    List.filter (fun r => (score r <? 0.1)%float) resultados_ordenados in
  do d1 <- lift (item resultados_ordenados 0);
  do d2 <- lift (item resultados_ordenados 0);
  do d3 <- lift (item resultados_ordenados 0);
  ret (PyDict [
    ("texto_analisado", PyStr texto);
    ("emocao_dominante", PyStr (traducao d1));
    ("emocao_dominante_original", PyStr (label d2));
    ("confianca_dominante", PyStr (porcentagem d3));
    ("resumo", PyDict [
       ("emocoes_alta_confianca", PyInt (len alta_probabilidade));
       ("emocoes_media_confianca", PyInt (len media_probabilidade));
       ("emocoes_baixa_confianca", PyInt (len baixa_probabilidade))
     ]);
    ("todas_emocoes", PyList (map emocao_detalhada resultados_ordenados))
  ]).

Definition analisar_sentimento_detalhado (texto : string) : M string :=
  do resposta <- analisar_sentimento_detalhado_resposta texto;
  ret (json_dumps resposta).

(** ** Tool 3 *)

Definition emocao_top3 (r : Emocao) : PyVal :=
  PyDict [
    ("emocao", PyStr (traducao r));
    ("emocao_original", PyStr (label r));
    ("probabilidade", PyStr (porcentagem r))
  ].

(** The body of the loop [for idx, texto in enumerate(textos, 1)], from the
    element numbered [idx] on; [analises] is the list built so far. *)
Fixpoint comparar_laco (modelo : Pipeline) (idx : Z) (textos : list string)
    (analises : list PyVal) : M (list PyVal) :=
  match textos with
  | [] => ret analises
  | texto :: resto =>
      let resultados := chamar modelo texto in
      let resultados_ordenados := sorted_reverse score resultados in
      do d1 <- lift (item resultados_ordenados 0);
      do d2 <- lift (item resultados_ordenados 0);
      do d3 <- lift (item resultados_ordenados 0);
      comparar_laco modelo (idx + 1) resto
        (analises ++ [PyDict [
           ("texto_numero", PyInt idx);
           ("texto", PyStr texto);
           ("emocao_dominante", PyStr (traducao d1));
           ("emocao_dominante_original", PyStr (label d2));
           ("confianca", PyStr (porcentagem d3));
           ("top_3_emocoes",
            PyList (map emocao_top3 (slice_ate resultados_ordenados 3)))
         ]])
  end.

(** The dictionary the loop appends for [texto], whose sorted answer starts
    with [d]. *)
Definition analise (idx : Z) (texto : string) (d : Emocao) : PyVal :=
  PyDict [
    ("texto_numero", PyInt idx);
    ("texto", PyStr texto);
    ("emocao_dominante", PyStr (traducao d));
    ("emocao_dominante_original", PyStr (label d));
    ("confianca", PyStr (porcentagem d));
    ("top_3_emocoes",
     PyList (map emocao_top3 (slice_ate (sorted_reverse score (inferir texto)) 3)))
  ].

(** The dictionary [resposta] of [comparar_sentimentos]. *)
Definition comparar_sentimentos_resposta (textos : list string) : M PyVal :=
  do modelo <- inicializar_modelo pipeline;
  do analises <- comparar_laco modelo 1 textos [];
  ret (PyDict [
    ("total_textos_analisados", PyInt (len textos));
    ("analises", PyList analises)
  ]).

Definition comparar_sentimentos (textos : list string) : M string :=
  do resposta <- comparar_sentimentos_resposta textos;
  ret (json_dumps resposta).

(** ** The life of the process *)

(** What the process is asked to do: [inicializar_modelo()] (the entry point
    calls it before serving) and the three tools. *)
Inductive Chamada : Type :=
| ChInicializar
| ChAnalisar (texto : string) (top_k : Z)
| ChDetalhado (texto : string)
| ChComparar (textos : list string).

(** The process after one call, whether it returned or raised. *)
Definition executar (c : Chamada) (g : Processo) : Processo :=
  match c with
  | ChInicializar => snd (inicializar_modelo pipeline g)
  | ChAnalisar texto top_k => snd (analisar_sentimento texto top_k g)
  | ChDetalhado texto => snd (analisar_sentimento_detalhado texto g)
  | ChComparar textos => snd (comparar_sentimentos textos g)
  end.

(** The process after a sequence of calls, the first of the list first. *)
Definition executar_todas (cs : list Chamada) (g : Processo) : Processo :=
  fold_left (fun g c => executar c g) cs g.

End Ferramentas.

End Servidor.
Import Servidor.

(* ===================================================================== *)
(** * An interpretation of the parameters *)
(* ===================================================================== *)

(** The development is parametric in the classifier and in the builtins.  To
    run the tools on concrete inputs this module fixes a classifier that gives
    every text the same 28 scored labels, and implements the builtins on the
    values that occur with it: percentages between 0 and 100. *)
Module Exemplo.

Definition inferir (texto : string) : list Emocao := [
    {| label := "admiration"; score := 0.02 |};
    {| label := "amusement"; score := 0.01 |};
    {| label := "anger"; score := 0.003 |};
    {| label := "annoyance"; score := 0.004 |};
    {| label := "approval"; score := 0.1 |};
    {| label := "caring"; score := 0.006 |};
    {| label := "confusion"; score := 0.002 |};
    {| label := "curiosity"; score := 0.005 |};
    {| label := "desire"; score := 0.03 |};
    {| label := "disappointment"; score := 0.001 |};
    {| label := "disapproval"; score := 0.002 |};
    {| label := "disgust"; score := 0.001 |};
    {| label := "embarrassment"; score := 0.001 |};
    {| label := "excitement"; score := 0.5 |};
    {| label := "fear"; score := 0.002 |};
    {| label := "gratitude"; score := 0.07 |};
    {| label := "grief"; score := 0.001 |};
    {| label := "joy"; score := 0.9 |};
    {| label := "love"; score := 0.07 |};
    {| label := "nervousness"; score := 0.004 |};
    {| label := "optimism"; score := 0.25 |};
    {| label := "pride"; score := 0.04 |};
    {| label := "realization"; score := 0.008 |};
    {| label := "relief"; score := 0.009 |};
    {| label := "remorse"; score := 0.001 |};
    {| label := "sadness"; score := 0.002 |};
    {| label := "surprise"; score := 0.0999 |};
    {| label := "neutral"; score := 0.05 |}
  ].

(** The integer nearest to [m * 2^e], ties to the even one. *)
Definition inteiro_proximo (m e : Z) : Z :=
  if (0 <=? e)%Z then m * 2 ^ e
  else
    let d := (2 ^ (- e))%Z in
    let q := (m / d)%Z in
    match (2 * (m mod d) ?= d)%Z with
    | Lt => q
    | Gt => (q + 1)%Z
    | Eq => if Z.even q then q else (q + 1)%Z
    end.

(** [x * 10^ndigits] rounded to an integer, for a positive finite [x]. *)
Definition escalado (x : float) (ndigits : Z) : Z :=
  match Prim2SF x with
  | S754_finite false m e => inteiro_proximo (Zpos m * 10 ^ ndigits) e
  | _ => 0
  end.

Definition float_of_Z (k : Z) : float :=
  SF2Prim (binary_normalize prec emax k 0 false).

(** [round(x, ndigits)]: the float nearest to the decimal with [ndigits]
    digits nearest to [x]. *)
Definition py_round (x : float) (ndigits : Z) : float :=
  (float_of_Z (escalado x ndigits) / float_of_Z (10 ^ ndigits))%float.

Definition digitos (k : Z) : string :=
  NilZero.string_of_int (Z.to_int k).

(** [f"{x}"] for a float with at most two decimals: the shortest decimal
    that reads back as [x], with at least one digit after the point. *)
Definition py_str (x : float) : string :=
  let k := escalado x 2 in
  let frac := (k mod 100)%Z in
  digitos (k / 100) ++ "." ++
  (if (frac mod 10 =? 0)%Z then digitos (frac / 10)
   else digitos (frac / 10) ++ digitos (frac mod 10)).

(** Inputs of the example client. *)
Definition texto : string :=
  "Estou muito feliz e animado com essa nova oportunidade! Mal posso esperar para começar!".

Definition textos : list string := [
  "Que dia maravilhoso! Tudo está perfeito!";
  "Estou muito frustrado e irritado com essa situação.";
  "Não sei o que pensar sobre isso, estou confuso.";
  "Obrigado por tudo! Você é incrível!"
].

(** [json.dumps(v, indent=2, ensure_ascii=False)]: items one per line,
    indented by two spaces per level; in strings only the quote, the
    backslash and the control characters are escaped.  Floats are printed
    by [py_str]. *)
Definition aspas : string := String (Ascii.ascii_of_nat 34) EmptyString.
Definition barra : string := String (Ascii.ascii_of_nat 92) EmptyString.
Definition nova_linha : string := String (Ascii.ascii_of_nat 10) EmptyString.

Definition hex (n : nat) : string :=
  match nth_error (list_ascii_of_string "0123456789abcdef") n with
  | Some c => String c EmptyString
  | None => EmptyString
  end.

Definition escape_char (c : Ascii.ascii) : string :=
  let n := Ascii.nat_of_ascii c in
  if (n =? 34)%nat then barra ++ aspas
  else if (n =? 92)%nat then barra ++ barra
  else if (n =? 10)%nat then barra ++ "n"
  else if (n =? 13)%nat then barra ++ "r"
  else if (n =? 9)%nat then barra ++ "t"
  else if (n =? 8)%nat then barra ++ "b"
  else if (n =? 12)%nat then barra ++ "f"
  else if (n <? 32)%nat then barra ++ "u00" ++ hex (n / 16) ++ hex (n mod 16)
  else String c EmptyString.

Fixpoint escape (s : string) : string :=
  match s with
  | EmptyString => EmptyString
  | String c s' => escape_char c ++ escape s'
  end.

Definition json_str (s : string) : string := aspas ++ escape s ++ aspas.

Fixpoint espacos (n : nat) : string :=
  match n with
  | O => EmptyString
  | S n' => " " ++ espacos n'
  end.

Definition quebra (nivel : nat) : string := nova_linha ++ espacos (2 * nivel).

Fixpoint dumps (nivel : nat) (v : PyVal) : string :=
  match v with
  | PyInt n => digitos n
  | PyFloat x => py_str x
  | PyStr s => json_str s
  | PyList [] => "[]"
  | PyList (v0 :: l) =>
      "[" ++ quebra (S nivel) ++ dumps (S nivel) v0 ++
      (fix resto (l : list PyVal) : string :=
         match l with
         | [] => EmptyString
         | v' :: l' => "," ++ quebra (S nivel) ++ dumps (S nivel) v' ++ resto l'
         end) l ++
      quebra nivel ++ "]"
  | PyDict [] => "{}"
  | PyDict ((k0, v0) :: d) =>
      "{" ++ quebra (S nivel) ++ json_str k0 ++ ": " ++ dumps (S nivel) v0 ++
      (fix resto (d : list (string * PyVal)) : string :=
         match d with
         | [] => EmptyString
         | (k', v') :: d' =>
             "," ++ quebra (S nivel) ++ json_str k' ++ ": " ++ dumps (S nivel) v' ++
             resto d'
         end) d ++
      quebra nivel ++ "}"
  end.

Definition json_dumps (resposta : PyVal) : string := dumps 0 resposta.

End Exemplo.

(* ===================================================================== *)
(** * The classifier's contract *)
(* ===================================================================== *)

(** A probability: a float between 0 and 1. *)
Definition prob (s : float) : bool := (0 <=? s)%float && (s <=? 1)%float.

(** The classifier answers with 28 scored labels, each with a probability. *)
Definition contrato (resultados : list Emocao) : bool :=
  (length resultados =? 28)%nat && forallb (fun r => prob (score r)) resultados.

(** [a] comes before [b] in non-increasing order of [key]. *)
Definition decrescente {A : Type} (key : A -> float) (a b : A) : Prop :=
  (key b <=? key a)%float = true.

(** [r] has a largest score among [rs]. *)
Definition maximo (r : Emocao) (rs : list Emocao) : Prop :=
  In r rs /\ forall r', In r' rs -> (score r' <=? score r)%float = true.

(** [key x] is not a NaN, so that it compares with every other such key. *)
Definition comparavel {A : Type} (key : A -> float) (x : A) : Prop :=
  is_nan (key x) = false.

Definition sf_nan (x : spec_float) : bool :=
  match x with S754_nan => true | _ => false end.

(* ===================================================================== *)
(** * Edge cases: what to expect of a slice, and classifiers off contract *)
(* ===================================================================== *)

(** The length of [l[:k]] for a list of [n] elements. *)
Definition fatia_len (n k : Z) : Z :=
  if (k <? 0)%Z then Z.max 0 (n + k) else Z.min k n.

(** Whether [l[:k]] has an element, for a list of [n] elements. *)
Definition fatia_nao_vazia (n k : Z) : bool :=
  ((1 <=? k)%Z && (1 <=? n)%Z) || ((k <? 0)%Z && (- n <? k)%Z).

(** The process once the model is loaded: one pipeline built, the two lines
    of [inicializar_modelo] printed. *)
Definition processo_carregado : Processo :=
  {| classificador := Some {| pipeline_id := 0 |};
     pipelines_criados := 1;
     stdout := ["Carregando modelo GoEmotions... (pode levar alguns segundos)";
                "Modelo carregado com sucesso!"] |}.

(** The process after [n] attempts to load the model that raised: nothing is
    stored, and each attempt printed the first line of [inicializar_modelo]. *)
Definition apos_falhas (n : nat) : Processo :=
  {| classificador := None;
     pipelines_criados := 0;
     stdout :=
       repeat "Carregando modelo GoEmotions... (pode levar alguns segundos)" n |}.

(** The process once the model is loaded by the attempt that follows [n]
    attempts that raised: [apos_carga 0 c] is [processo_carregado] when [c]
    is the first pipeline. *)
Definition apos_carga (n : nat) (c : Pipeline) : Processo :=
  {| classificador := Some c;
     pipelines_criados := 1;
     stdout := stdout (apos_falhas (S n)) ++ ["Modelo carregado com sucesso!"] |}.

(** The entries of a list of dictionaries seen through one key. *)
Definition campos (k : string) (es : list PyVal) : list (option PyVal) :=
  map (campo k) es.

(** The responses of [analisar_sentimento] and
    [analisar_sentimento_detalhado] as functions of what they are built
    from: the classifier's answer, its sorted list [ordenados] (for the first
    tool also the slice [top]) and the dominant label [d]. *)
Section Respostas.

Variable py_round : float -> Z -> float.
Variable py_str : float -> string.

Definition resposta_top (texto : string) (resultados top : list Emocao)
    (d : Emocao) : PyVal :=
  PyDict [
    ("texto_analisado", PyStr texto);
    ("total_emocoes", PyInt (len resultados));
    ("top_emocoes", PyList (map (emocao_top py_round py_str) top));
    ("emocao_dominante", PyStr (traducao d));
    ("emocao_dominante_original", PyStr (label d));
    ("confianca_dominante", PyStr (porcentagem py_round py_str d))
  ].

Definition resposta_detalhada (texto : string) (ordenados : list Emocao)
    (d : Emocao) : PyVal :=
  PyDict [
    ("texto_analisado", PyStr texto);
    ("emocao_dominante", PyStr (traducao d));
    ("emocao_dominante_original", PyStr (label d));
    ("confianca_dominante", PyStr (porcentagem py_round py_str d));
    ("resumo", PyDict [
       ("emocoes_alta_confianca",
        PyInt (len (List.filter (fun r => (0.5 <=? score r)%float) ordenados)));
       ("emocoes_media_confianca",
        PyInt (len (List.filter
                 (fun r => (0.1 <=? score r)%float && (score r <? 0.5)%float)
                 ordenados)));
       ("emocoes_baixa_confianca",
        PyInt (len (List.filter (fun r => (score r <? 0.1)%float) ordenados)))
     ]);
    ("todas_emocoes", PyList (map (emocao_detalhada py_round py_str) ordenados))
  ].

End Respostas.

Module Borda.


(** A classifier whose answer has three labels, one of them with a NaN
    score. *)
Definition inferir_nan (texto : string) : list Emocao := [
    {| label := "joy"; score := 0.9 |};
    {| label := "fear"; score := nan |};
    {| label := "anger"; score := 0.05 |}
  ].

(** A classifier whose answer has two labels only. *)
Definition inferir_curto (texto : string) : list Emocao := [
    {| label := "neutral"; score := 0.2 |};
    {| label := "joy"; score := 0.9 |}
  ].

(** A call [pipeline(...)] that never returns the model, as when it cannot be
    fetched. *)
Definition pipeline_falha (g : Processo) : Res Pipeline :=
  Raise (ErroExterno "OSError").

(** A call [pipeline(...)] that raises in the first two attempts of a process
    and returns in the third. *)
Definition pipeline_instavel (g : Processo) : Res Pipeline :=
  if (length (stdout g) <=? 2)%nat then Raise (ErroExterno "OSError")
  else pipeline_novo g.

End Borda.

(* ===================================================================== *)
(** * Order properties of binary64 comparisons *)
(* ===================================================================== *)

Module FloatOrder.

Ltac fold_pos_compare :=
  repeat match goal with
  | |- context [PosDef.Pos.compare_cont Eq ?a ?b] =>
      change (PosDef.Pos.compare_cont Eq a b) with (Pos.compare a b)
  end.

Ltac cmp_cases :=
  repeat match goal with
  | |- context [Z.compare ?a ?b] => destruct (Z.compare_spec a b); subst
  | |- context [Pos.compare ?a ?b] => destruct (Pos.compare_spec a b); subst
  end.

Ltac sf_cases x y :=
  let sx := fresh "sx" in
  let sy := fresh "sy" in
  destruct x as [sx|sx| |sx ? ?], y as [sy|sy| |sy ? ?];
  try destruct sx; try destruct sy; simpl.

Lemma SFcompare_None (x y : spec_float) :
  SFcompare x y = None <-> sf_nan x = true \/ sf_nan y = true.
Proof. sf_cases x y; intuition discriminate. Qed.

Lemma SFleb_not_nan (x y : spec_float) :
  SFleb x y = true -> sf_nan x = false /\ sf_nan y = false.
Proof. unfold SFleb. sf_cases x y; intuition discriminate. Qed.

Lemma SFeqb_refl (x : spec_float) : SFeqb x x = negb (sf_nan x).
Proof.
  unfold SFeqb. destruct x as [s|s| |s m e]; try destruct s; simpl; try reflexivity;
    fold_pos_compare; rewrite Z.compare_refl, Pos.compare_refl; reflexivity.
Qed.

(** Away from NaN, [<] is the negation of the converse [<=]. *)
Lemma SFltb_negb_SFleb (x y : spec_float) :
  sf_nan x = false -> sf_nan y = false -> SFltb x y = negb (SFleb y x).
Proof.
  unfold SFltb, SFleb. sf_cases x y; try reflexivity; try discriminate; intros _ _.
  all: fold_pos_compare; cmp_cases; simpl; try reflexivity; lia.
Qed.

Lemma SFleb_trans (x y z : spec_float) :
  SFleb x y = true -> SFleb y z = true -> SFleb x z = true.
Proof.
  unfold SFleb.
  destruct x as [sx|sx| |sx mx ex], y as [sy|sy| |sy my ey], z as [sz|sz| |sz mz ez];
    try destruct sx; try destruct sy; try destruct sz; simpl;
    try reflexivity; try discriminate; try (intros; assumption).
  all: fold_pos_compare; cmp_cases; simpl; intros;
    try reflexivity; try discriminate; try lia.
Qed.

(** Two floats equal to a third are not in strict order. *)
Lemma SFeqb_SFltb (x y v : spec_float) :
  SFeqb x v = true -> SFeqb y v = true -> SFltb x y = false.
Proof.
  unfold SFeqb, SFltb.
  destruct x as [sx|sx| |sx mx ex], y as [sy|sy| |sy my ey], v as [sv|sv| |sv mv ev];
    try destruct sx; try destruct sy; try destruct sv; simpl;
    try reflexivity; try discriminate.
  all: fold_pos_compare; cmp_cases; simpl; intros;
    try reflexivity; try discriminate; try lia.
Qed.

(** The same facts on primitive floats, through the specification of the
    primitive comparisons. *)

Lemma is_nan_spec (x : float) : is_nan x = sf_nan (Prim2SF x).
Proof.
  unfold is_nan. rewrite FloatAxioms.eqb_spec, SFeqb_refl. apply negb_involutive.
Qed.

Lemma leb_not_nan (x y : float) :
  (x <=? y)%float = true -> is_nan x = false /\ is_nan y = false.
Proof. rewrite FloatAxioms.leb_spec, !is_nan_spec. apply SFleb_not_nan. Qed.

Lemma ltb_negb_leb (x y : float) :
  is_nan x = false -> is_nan y = false -> (x <? y)%float = negb (y <=? x)%float.
Proof. rewrite FloatAxioms.ltb_spec, FloatAxioms.leb_spec, !is_nan_spec. apply SFltb_negb_SFleb. Qed.

Lemma ltb_leb (x y : float) : (x <? y)%float = true -> (x <=? y)%float = true.
Proof.
  rewrite FloatAxioms.ltb_spec, FloatAxioms.leb_spec. unfold SFltb, SFleb.
  destruct (SFcompare (Prim2SF x) (Prim2SF y)) as [[]|]; congruence.
Qed.

Lemma leb_trans (x y z : float) :
  (x <=? y)%float = true -> (y <=? z)%float = true -> (x <=? z)%float = true.
Proof. rewrite !FloatAxioms.leb_spec. apply SFleb_trans. Qed.

Lemma eqb_ltb (x y v : float) :
  (x =? v)%float = true -> (y =? v)%float = true -> (x <? y)%float = false.
Proof. rewrite !FloatAxioms.eqb_spec, FloatAxioms.ltb_spec. apply SFeqb_SFltb. Qed.

End FloatOrder.

(* ===================================================================== *)
(** * Sorting *)
(* ===================================================================== *)

Lemma In_firstn_In {A : Type} (x : A) (n : nat) (l : list A) :
  In x (firstn n l) -> In x l.
Proof.
  revert n. induction l as [|y l IH]; intros [|n]; simpl; try tauto.
  intros [H|H]; [now left|right; eauto].
Qed.

Lemma StronglySorted_firstn {A : Type} (R : A -> A -> Prop) (n : nat) (l : list A) :
  StronglySorted R l -> StronglySorted R (firstn n l).
Proof.
  intros Hs. revert n. induction Hs as [|x l Hs IH Hx]; intros [|n]; simpl;
    try constructor; [apply IH|].
  apply List.Forall_forall. intros y Hy. rewrite List.Forall_forall in Hx.
  apply Hx. eapply In_firstn_In; eassumption.
Qed.

Section SortedFacts.
Context {A : Type} (key : A -> float).

Lemma inserir_perm (x : A) (l : list A) : Permutation (x :: l) (inserir key x l).
Proof.
  induction l as [|y l IH]; simpl; [reflexivity|].
  destruct (key x <? key y)%float; [|reflexivity].
  rewrite perm_swap. now apply perm_skip.
Qed.

Lemma sorted_reverse_perm (l : list A) : Permutation l (sorted_reverse key l).
Proof.
  induction l as [|x l IH]; simpl; [constructor|].
  rewrite <- inserir_perm. now apply perm_skip.
Qed.

Lemma sorted_reverse_length (l : list A) :
  length (sorted_reverse key l) = length l.
Proof. symmetry. apply Permutation_length, sorted_reverse_perm. Qed.

Lemma sorted_reverse_In (x : A) (l : list A) :
  In x (sorted_reverse key l) <-> In x l.
Proof.
  split; apply Permutation_in;
    [symmetry|]; apply sorted_reverse_perm.
Qed.

Lemma decrescente_trans (a b c : A) :
  decrescente key a b -> decrescente key b c -> decrescente key a c.
Proof. unfold decrescente. intros Hab Hbc. exact (FloatOrder.leb_trans _ _ _ Hbc Hab). Qed.

Lemma inserir_sorted (x : A) (l : list A) :
  comparavel key x -> Forall (comparavel key) l ->
  StronglySorted (decrescente key) l ->
  StronglySorted (decrescente key) (inserir key x l).
Proof.
  intros Hx Hl Hs. induction Hs as [|y l Hs IH Hy]; simpl.
  - constructor; constructor.
  - apply Forall_cons_iff in Hl as [Hcy Hl].
    destruct (key x <? key y)%float eqn:E.
    + constructor; [now apply IH|].
      apply (Permutation_Forall (inserir_perm x l)).
      constructor; [|exact Hy].
      now apply FloatOrder.ltb_leb.
    + assert (Hxy : decrescente key x y).
      { unfold decrescente. rewrite FloatOrder.ltb_negb_leb in E by assumption.
        now apply negb_false_iff in E. }
      constructor; [now constructor|].
      constructor; [exact Hxy|].
      eapply List.Forall_impl; [|exact Hy].
      intros z Hz. eapply decrescente_trans; eassumption.
Qed.

Lemma sorted_reverse_sorted (l : list A) :
  Forall (comparavel key) l -> StronglySorted (decrescente key) (sorted_reverse key l).
Proof.
  induction 1 as [|x l Hx Hl IH]; simpl; [constructor|].
  apply inserir_sorted; [exact Hx| |exact IH].
  apply (Permutation_Forall (sorted_reverse_perm l) Hl).
Qed.

(** The sort is stable: the elements whose key equals [v] come out in the
    order they came in. *)
Lemma inserir_stable (v : float) (x : A) (l : list A) :
  List.filter (fun y => (key y =? v)%float) (inserir key x l) =
  List.filter (fun y => (key y =? v)%float) (x :: l).
Proof.
  induction l as [|y l IH]; [reflexivity|].
  simpl inserir. destruct (key x <? key y)%float eqn:E; [|reflexivity].
  simpl in *. rewrite IH.
  destruct (key x =? v)%float eqn:Ex, (key y =? v)%float eqn:Ey; try reflexivity.
  now rewrite (FloatOrder.eqb_ltb _ _ _ Ex Ey) in E.
Qed.

Lemma sorted_reverse_stable (v : float) (l : list A) :
  List.filter (fun y => (key y =? v)%float) (sorted_reverse key l) =
  List.filter (fun y => (key y =? v)%float) l.
Proof.
  induction l as [|x l IH]; [reflexivity|].
  simpl sorted_reverse. rewrite inserir_stable. simpl. now rewrite IH.
Qed.

End SortedFacts.

(* ===================================================================== *)
(** * Slices and items *)
(* ===================================================================== *)

Lemma slice_ate_nonneg {A : Type} (l : list A) (k : Z) :
  (0 <= k)%Z -> slice_ate l k = firstn (Z.to_nat k) l.
Proof. intros H. unfold slice_ate. destruct (Z.ltb_spec k 0); [lia|reflexivity]. Qed.

Lemma slice_ate_firstn {A : Type} (l : list A) (k : Z) :
  exists n, slice_ate l k = firstn n l.
Proof. unfold slice_ate. destruct (k <? 0)%Z; eauto. Qed.

Lemma slice_ate_len {A : Type} (l : list A) (k : Z) :
  (0 <= k)%Z -> len (slice_ate l k) = Z.min k (len l).
Proof.
  intros H. rewrite slice_ate_nonneg by assumption.
  unfold len. rewrite length_firstn. lia.
Qed.

Lemma slice_ate_cons_pos {A : Type} (x : A) (l : list A) (k : Z) :
  (1 <= k)%Z -> exists t, slice_ate (x :: l) k = x :: t.
Proof.
  intros H. rewrite slice_ate_nonneg by lia.
  destruct (Z.to_nat k) eqn:E; [lia|]. simpl. eauto.
Qed.

(* ===================================================================== *)
(** * The contract gives comparable scores *)
(* ===================================================================== *)

Lemma prob_comparavel (s : float) : prob s = true -> is_nan s = false.
Proof.
  unfold prob. intros H. apply andb_true_iff in H as [H _].
  now apply FloatOrder.leb_not_nan in H.
Qed.

Lemma contrato_length (rs : list Emocao) : contrato rs = true -> length rs = 28.
Proof.
  unfold contrato. intros H. apply andb_true_iff in H as [H _].
  now apply Nat.eqb_eq in H.
Qed.

Lemma contrato_comparavel (rs : list Emocao) :
  contrato rs = true -> Forall (comparavel score) rs.
Proof.
  unfold contrato. intros H. apply andb_true_iff in H as [_ H].
  rewrite forallb_forall in H. apply List.Forall_forall.
  intros r Hr. apply prob_comparavel. now apply H.
Qed.

Lemma contrato_ordenados (rs : list Emocao) :
  contrato rs = true ->
  length (sorted_reverse score rs) = 28 /\
  Forall (comparavel score) (sorted_reverse score rs) /\
  StronglySorted (decrescente score) (sorted_reverse score rs).
Proof.
  intros H. pose proof (contrato_comparavel rs H) as Hc. repeat split.
  - rewrite sorted_reverse_length. now apply contrato_length.
  - exact (Permutation_Forall (sorted_reverse_perm score rs) Hc).
  - now apply sorted_reverse_sorted.
Qed.

(** The head of a sorted answer has a largest score. *)
Lemma ordenados_head_maximo (rs : list Emocao) (d : Emocao) (t : list Emocao) :
  Forall (comparavel score) rs ->
  sorted_reverse score rs = d :: t -> maximo d rs.
Proof.
  intros Hc E. pose proof (sorted_reverse_sorted score rs Hc) as Hs.
  assert (Hd : In d (sorted_reverse score rs)) by (rewrite E; now left).
  split; [now apply sorted_reverse_In in Hd|].
  intros r' Hr'. apply (sorted_reverse_In score) in Hr'. rewrite E in Hr', Hs.
  apply StronglySorted_inv in Hs as [_ Hs]. rewrite List.Forall_forall in Hs.
  destruct Hr' as [<-|Hr']; [|now apply Hs].
  rewrite FloatAxioms.leb_spec.
  assert (Hn : is_nan (score d) = false).
  { rewrite List.Forall_forall in Hc. apply Hc. now apply sorted_reverse_In in Hd. }
  rewrite FloatOrder.is_nan_spec in Hn.
  generalize (FloatOrder.SFeqb_refl (Prim2SF (score d))). rewrite Hn.
  unfold SFeqb, SFleb.
  destruct (SFcompare (Prim2SF (score d)) (Prim2SF (score d))) as [[]|];
    simpl; congruence.
Qed.

(* ===================================================================== *)
(** * The model is loaded once *)
(* ===================================================================== *)

(** When [pipeline(...)] returns, so does [inicializar_modelo]. *)
Lemma inicializar_modelo_returns (g : Processo) :
  exists c,
    inicializar_modelo pipeline_novo g =
      (Ok c, snd (inicializar_modelo pipeline_novo g)) /\
    classificador (snd (inicializar_modelo pipeline_novo g)) = Some c.
Proof.
  unfold inicializar_modelo. destruct (classificador g) as [c|] eqn:E; simpl; eauto.
Qed.

Lemma inicializar_modelo_cached (pipeline : Processo -> Res Pipeline)
    (g : Processo) (c : Pipeline) :
  classificador g = Some c -> inicializar_modelo pipeline g = (Ok c, g).
Proof. unfold inicializar_modelo. now intros ->. Qed.

(** In the two sections that follow the call [pipeline(...)] returns
    ([pipeline_novo]): the tools are studied on a model that loads.  What
    happens when it raises is the subject of the section [Carga]. *)
Section Propriedades.

Variable inferir : string -> list Emocao.
Variable py_round : float -> Z -> float.
Variable py_str : float -> string.
Variable json_dumps : PyVal -> string.

Local Abbreviation ordenados texto := (sorted_reverse score (inferir texto)).
Local Abbreviation porcentagem := (porcentagem py_round py_str).
Local Abbreviation emocao_top := (emocao_top py_round py_str).
Local Abbreviation emocao_detalhada := (emocao_detalhada py_round py_str).
Local Abbreviation emocao_top3 := (emocao_top3 py_round py_str).
Local Abbreviation analisar_sentimento_resposta :=
  (analisar_sentimento_resposta pipeline_novo inferir py_round py_str).
Local Abbreviation analisar_sentimento :=
  (analisar_sentimento pipeline_novo inferir py_round py_str json_dumps).
Local Abbreviation analisar_sentimento_detalhado_resposta :=
  (analisar_sentimento_detalhado_resposta pipeline_novo inferir py_round py_str).
Local Abbreviation analisar_sentimento_detalhado :=
  (analisar_sentimento_detalhado pipeline_novo inferir py_round py_str json_dumps).
Local Abbreviation comparar_laco := (comparar_laco inferir py_round py_str).
Local Abbreviation analise := (analise inferir py_round py_str).
Local Abbreviation comparar_sentimentos_resposta :=
  (comparar_sentimentos_resposta pipeline_novo inferir py_round py_str).
Local Abbreviation comparar_sentimentos :=
  (comparar_sentimentos pipeline_novo inferir py_round py_str json_dumps).
Local Abbreviation executar :=
  (executar pipeline_novo inferir py_round py_str json_dumps).
Local Abbreviation executar_todas :=
  (executar_todas pipeline_novo inferir py_round py_str json_dumps).
Local Abbreviation inicializar_modelo := (inicializar_modelo pipeline_novo).

(** ** What each tool returns *)

(** A tool returns the serialisation of its response, and raises when
    building the response raises. *)
Lemma json_dumps_fst (m : M PyVal) (g : Processo) (resposta : PyVal) :
  fst (m g) = Ok resposta ->
  fst ((do r <- m; ret (json_dumps r)) g) = Ok (json_dumps resposta).
Proof. unfold bind, ret. destruct (m g) as [[r|e] g']; simpl; congruence. Qed.

Lemma json_dumps_raise (m : M PyVal) (g : Processo) (e : Excecao) :
  fst (m g) = Raise e ->
  fst ((do r <- m; ret (json_dumps r)) g) = Raise e.
Proof. unfold bind, ret. destruct (m g) as [[r|e'] g']; simpl; congruence. Qed.

Lemma json_dumps_snd (m : M PyVal) (g : Processo) :
  snd ((do r <- m; ret (json_dumps r)) g) = snd (m g).
Proof. unfold bind, ret. destruct (m g) as [[r|e] g']; reflexivity. Qed.

Lemma analisar_sentimento_resposta_run (texto : string) (top_k : Z) (g : Processo) :
  analisar_sentimento_resposta texto top_k g =
  (match slice_ate (ordenados texto) top_k with
   | [] => Raise IndexError
   | d :: _ =>
       Ok (PyDict [
         ("texto_analisado", PyStr texto);
         ("total_emocoes", PyInt (len (inferir texto)));
         ("top_emocoes", PyList (map emocao_top (slice_ate (ordenados texto) top_k)));
         ("emocao_dominante", PyStr (traducao d));
         ("emocao_dominante_original", PyStr (label d));
         ("confianca_dominante", PyStr (porcentagem d))
       ])
   end, snd (inicializar_modelo g)).
Proof.
  unfold Servidor.analisar_sentimento_resposta, bind, chamar.
  destruct (inicializar_modelo_returns g) as (c & -> & _).
  destruct (slice_ate (ordenados texto) top_k); reflexivity.
Qed.

Lemma analisar_sentimento_detalhado_resposta_run (texto : string) (g : Processo) :
  analisar_sentimento_detalhado_resposta texto g =
  (match ordenados texto with
   | [] => Raise IndexError
   | d :: _ =>
       Ok (PyDict [
         ("texto_analisado", PyStr texto);
         ("emocao_dominante", PyStr (traducao d));
         ("emocao_dominante_original", PyStr (label d));
         ("confianca_dominante", PyStr (porcentagem d));
         ("resumo", PyDict [
            ("emocoes_alta_confianca",
             PyInt (len (List.filter (fun r => (0.5 <=? score r)%float) (ordenados texto))));
            ("emocoes_media_confianca",
             PyInt (len (List.filter
                      (fun r => (0.1 <=? score r)%float && (score r <? 0.5)%float)
                      (ordenados texto))));
            ("emocoes_baixa_confianca",
             PyInt (len (List.filter (fun r => (score r <? 0.1)%float) (ordenados texto))))
          ]);
         ("todas_emocoes", PyList (map emocao_detalhada (ordenados texto)))
       ])
   end, snd (inicializar_modelo g)).
Proof.
  unfold Servidor.analisar_sentimento_detalhado_resposta, bind, chamar.
  destruct (inicializar_modelo_returns g) as (c & -> & _).
  destruct (ordenados texto); reflexivity.
Qed.

Lemma comparar_laco_snd (modelo : Pipeline) (textos : list string) (idx : Z)
    (analises : list PyVal) (g : Processo) :
  snd (comparar_laco modelo idx textos analises g) = g.
Proof.
  revert idx analises. induction textos as [|texto resto IH]; intros idx analises;
    simpl; [reflexivity|].
  unfold bind, lift, item, chamar. destruct (ordenados texto); simpl; [reflexivity|apply IH].
Qed.

(** When no text has an empty answer the loop appends one dictionary for
    each text, in order, numbering them from [idx]. *)
Lemma comparar_laco_run (modelo : Pipeline) (textos : list string) (idx : Z)
    (analises : list PyVal) (g : Processo) :
  Forall (fun texto => inferir texto <> []) textos ->
  exists novas,
    comparar_laco modelo idx textos analises g = (Ok (analises ++ novas)%list, g) /\
    length novas = length textos /\
    forall (i : nat) (texto : string),
      nth_error textos i = Some texto ->
      exists d t, ordenados texto = d :: t /\
                  nth_error novas i = Some (analise (idx + Z.of_nat i) texto d).
Proof.
  intros H. revert idx analises.
  induction H as [|texto resto Hne _ IH]; intros idx analises; simpl; unfold chamar.
  - exists []. rewrite app_nil_r. repeat split. intros [|i] texto; discriminate.
  - destruct (ordenados texto) as [|d t] eqn:E.
    { exfalso. apply Hne. apply (f_equal (@length _)) in E.
      rewrite sorted_reverse_length in E. now destruct (inferir texto). }
    unfold bind at 1 2 3. unfold lift, item. simpl.
    edestruct IH as (novas & -> & Hlen & Hnth).
    eexists (_ :: novas). split; [|split].
    + rewrite <- app_assoc. reflexivity.
    + simpl. now rewrite Hlen.
    + intros [|i] texto' Hi; simpl in Hi.
      * injection Hi as <-. exists d, t. split; [exact E|]. simpl.
        unfold Servidor.analise. rewrite E, Z.add_0_r. reflexivity.
      * destruct (Hnth i texto' Hi) as (d' & t' & E' & Hn).
        exists d', t'. split; [exact E'|]. simpl. rewrite Hn.
        do 2 f_equal. lia.
Qed.

Lemma comparar_sentimentos_resposta_run (textos : list string) (g : Processo) :
  Forall (fun texto => inferir texto <> []) textos ->
  exists analises,
    comparar_sentimentos_resposta textos g =
      (Ok (PyDict [
         ("total_textos_analisados", PyInt (len textos));
         ("analises", PyList analises)
       ]), snd (inicializar_modelo g)) /\
    length analises = length textos /\
    forall (i : nat) (texto : string),
      nth_error textos i = Some texto ->
      exists d t, ordenados texto = d :: t /\
                  nth_error analises i = Some (analise (Z.of_nat i + 1) texto d).
Proof.
  intros H. unfold Servidor.comparar_sentimentos_resposta, bind.
  destruct (inicializar_modelo_returns g) as (c & -> & _).
  destruct (comparar_laco_run c textos 1 [] (snd (inicializar_modelo g)) H)
    as (novas & -> & Hlen & Hnth).
  exists novas. repeat split; [exact Hlen|].
  intros i texto Hi. destruct (Hnth i texto Hi) as (d & t & E & Hn).
  exists d, t. split; [exact E|]. now rewrite Z.add_comm.
Qed.

Lemma comparar_sentimentos_resposta_snd (textos : list string) (g : Processo) :
  snd (comparar_sentimentos_resposta textos g) = snd (inicializar_modelo g).
Proof.
  unfold Servidor.comparar_sentimentos_resposta, bind.
  destruct (inicializar_modelo_returns g) as (c & -> & _).
  pose proof (comparar_laco_snd c textos 1 [] (snd (inicializar_modelo g))) as Hs.
  destruct (comparar_laco c 1 textos [] (snd (inicializar_modelo g))) as [[a|e] g'];
    simpl in *; congruence.
Qed.

(** Every call changes the process as [inicializar_modelo()] does. *)
Lemma executar_inicializar (c : Chamada) (g : Processo) :
  executar c g = snd (inicializar_modelo g).
Proof.
  destruct c; simpl; [reflexivity| | |].
  - unfold Servidor.analisar_sentimento.
    now rewrite json_dumps_snd, analisar_sentimento_resposta_run.
  - unfold Servidor.analisar_sentimento_detalhado.
    now rewrite json_dumps_snd, analisar_sentimento_detalhado_resposta_run.
  - unfold Servidor.comparar_sentimentos.
    now rewrite json_dumps_snd, comparar_sentimentos_resposta_snd.
Qed.

Lemma executar_todas_carregado (cs : list Chamada) (g : Processo) (c : Pipeline) :
  classificador g = Some c -> executar_todas cs g = g.
Proof.
  intros H. unfold Servidor.executar_todas. induction cs as [|c' cs IH]; simpl;
    [reflexivity|].
  rewrite executar_inicializar, (inicializar_modelo_cached _ g c H). exact IH.
Qed.

(** C8: the classifier is built at most once per process.  Whatever the
    state [g] of the process, a call to [inicializar_modelo] returns a
    pipeline [c] and leaves it in the global [classificador]; every later
    call returns the same [c] and does not change the process (so it builds
    no pipeline), also after any sequence [cs] of further calls to it and to
    the tools; and a process started from the initial state has built at
    most one pipeline after any sequence of calls. *)
Theorem classificador_initialised_once (g : Processo) (cs : list Chamada) :
  let g1 := snd (inicializar_modelo g) in
  (exists c : Pipeline,
      fst (inicializar_modelo g) = Ok c /\
      classificador g1 = Some c /\
      inicializar_modelo g1 = (Ok c, g1) /\
      inicializar_modelo (executar_todas cs g1) = (Ok c, g1)) /\
  executar_todas cs g1 = g1 /\
  (pipelines_criados (executar_todas cs processo_inicial) <= 1)%nat.
Proof.
  intros g1. destruct (inicializar_modelo_returns g) as (c & E & Hc). fold g1 in E, Hc.
  pose proof (executar_todas_carregado cs g1 c Hc) as Hcs.
  split; [|split].
  - exists c. rewrite Hcs, E. auto using inicializar_modelo_cached.
  - exact Hcs.
  - destruct cs as [|c' cs']; [simpl; lia|].
    unfold Servidor.executar_todas. simpl fold_left. rewrite executar_inicializar.
    change (fold_left _ cs' ?s) with (executar_todas cs' s).
    erewrite executar_todas_carregado by reflexivity. simpl. lia.
Qed.

(** ** Confidence tiers *)

Lemma ltb_half (s : float) :
  is_nan s = false -> (s <? 0.5)%float = negb (0.5 <=? s)%float.
Proof. intros H. now apply FloatOrder.ltb_negb_leb. Qed.

Lemma ltb_tenth (s : float) :
  is_nan s = false -> (s <? 0.1)%float = negb (0.1 <=? s)%float.
Proof. intros H. now apply FloatOrder.ltb_negb_leb. Qed.

Lemma leb_half_tenth (s : float) :
  (0.5 <=? s)%float = true -> (0.1 <=? s)%float = true.
Proof. apply FloatOrder.leb_trans. reflexivity. Qed.

(** A score that is not a NaN falls in exactly one of the three tiers. *)
Lemma tiers_partition (s : float) :
  is_nan s = false ->
  Nat.b2n (0.5 <=? s)%float +
  Nat.b2n ((0.1 <=? s)%float && (s <? 0.5)%float) +
  Nat.b2n (s <? 0.1)%float = 1.
Proof.
  intros H. rewrite ltb_half, ltb_tenth by assumption.
  pose proof (leb_half_tenth s) as Hht.
  destruct (0.5 <=? s)%float; [rewrite Hht by reflexivity; reflexivity|].
  destruct (0.1 <=? s)%float; reflexivity.
Qed.

Lemma filter_partition_length {A : Type} (p1 p2 p3 : A -> bool) (l : list A) :
  Forall (fun x => Nat.b2n (p1 x) + Nat.b2n (p2 x) + Nat.b2n (p3 x) = 1) l ->
  length (List.filter p1 l) + length (List.filter p2 l) + length (List.filter p3 l) =
  length l.
Proof.
  induction 1 as [|x l Hx _ IH]; simpl; [reflexivity|].
  destruct (p1 x), (p2 x), (p3 x); simpl in *; lia.
Qed.

Lemma filter_perm_length {A : Type} (p : A -> bool) (l l' : list A) :
  Permutation l l' -> length (List.filter p l) = length (List.filter p l').
Proof.
  induction 1 as [|x l l' _ IH|x y l|l l' l'' _ IH1 _ IH2]; simpl.
  - reflexivity.
  - destruct (p x); simpl; congruence.
  - destruct (p x), (p y); reflexivity.
  - congruence.
Qed.

Lemma nivel_tiers (r : Emocao) :
  is_nan (score r) = false ->
  (nivel r = "alta" <-> (0.5 <=? score r)%float = true) /\
  (nivel r = "média" <->
     (0.1 <=? score r)%float && (score r <? 0.5)%float = true) /\
  (nivel r = "baixa" <-> (score r <? 0.1)%float = true).
Proof.
  intros H. unfold nivel. rewrite ltb_half, ltb_tenth by assumption.
  pose proof (leb_half_tenth (score r)) as Hht.
  destruct (0.5 <=? score r)%float.
  - rewrite Hht by reflexivity. simpl. repeat split; intros; congruence.
  - destruct (0.1 <=? score r)%float; simpl; repeat split; intros; congruence.
Qed.

(** ** The three responses under the contract *)

Lemma slice_ate_cons_neg {A : Type} (x : A) (l : list A) (k : Z) :
  length (x :: l) = 28 -> (-28 < k < 0)%Z -> exists t, slice_ate (x :: l) k = x :: t.
Proof.
  intros Hl Hk. unfold slice_ate, len. rewrite Hl.
  destruct (Z.ltb_spec k 0); [|lia].
  destruct (Z.to_nat (Z.max 0 (Z.of_nat 28 + k))) eqn:E; [lia|]. simpl. eauto.
Qed.

Lemma slice_ate_nil_28 {A : Type} (l : list A) (k : Z) :
  length l = 28 -> (k = 0 \/ k <= -28)%Z -> slice_ate l k = [].
Proof.
  intros Hl [->|Hk]; [reflexivity|]. unfold slice_ate, len. rewrite Hl.
  destruct (Z.ltb_spec k 0); [|lia].
  replace (Z.to_nat (Z.max 0 (Z.of_nat 28 + k))) with 0 by lia. reflexivity.
Qed.

Lemma slice_ate_sorted_In (texto : string) (k : Z) :
  contrato (inferir texto) = true ->
  Forall (fun r => In r (inferir texto)) (slice_ate (ordenados texto) k) /\
  StronglySorted (decrescente score) (slice_ate (ordenados texto) k).
Proof.
  intros Hc. destruct (contrato_ordenados _ Hc) as (_ & _ & Hs).
  destruct (slice_ate_firstn (ordenados texto) k) as [n ->]. split.
  - apply List.Forall_forall. intros r Hr. apply In_firstn_In in Hr.
    now apply sorted_reverse_In in Hr.
  - now apply StronglySorted_firstn.
Qed.

Lemma analisar_sentimento_shape (texto : string) (top_k : Z) (g : Processo) :
  contrato (inferir texto) = true ->
  (1 <= top_k \/ -28 < top_k < 0)%Z ->
  exists (d : Emocao) (resposta : PyVal),
    maximo d (inferir texto) /\
    resposta = PyDict [
      ("texto_analisado", PyStr texto);
      ("total_emocoes", PyInt (len (inferir texto)));
      ("top_emocoes", PyList (map emocao_top (slice_ate (ordenados texto) top_k)));
      ("emocao_dominante", PyStr (traducao d));
      ("emocao_dominante_original", PyStr (label d));
      ("confianca_dominante", PyStr (porcentagem d))
    ] /\
    fst (analisar_sentimento_resposta texto top_k g) = Ok resposta /\
    fst (analisar_sentimento texto top_k g) = Ok (json_dumps resposta).
Proof.
  intros Hc Hk.
  destruct (contrato_ordenados _ Hc) as (Hlen & _ & _).
  pose proof (ordenados_head_maximo (inferir texto)) as Hmax.
  pose proof (analisar_sentimento_resposta_run texto top_k g) as Hrun.
  destruct (ordenados texto) as [|d t] eqn:E; [discriminate Hlen|].
  assert (Hs : exists t', slice_ate (d :: t) top_k = d :: t').
  { destruct Hk as [Hk|Hk];
      [now apply slice_ate_cons_pos|now apply slice_ate_cons_neg]. }
  destruct Hs as [t' Et]. rewrite Et in *.
  eexists d, _. split; [|split; [reflexivity|]].
  { eapply Hmax; [now apply contrato_comparavel|reflexivity]. }
  apply (f_equal fst) in Hrun. simpl in Hrun. split; [exact Hrun|].
  now apply json_dumps_fst.
Qed.

Lemma analisar_sentimento_detalhado_shape (texto : string) (g : Processo) :
  contrato (inferir texto) = true ->
  exists (d : Emocao) (resposta : PyVal),
    maximo d (inferir texto) /\
    resposta = PyDict [
      ("texto_analisado", PyStr texto);
      ("emocao_dominante", PyStr (traducao d));
      ("emocao_dominante_original", PyStr (label d));
      ("confianca_dominante", PyStr (porcentagem d));
      ("resumo", PyDict [
         ("emocoes_alta_confianca",
          PyInt (len (List.filter (fun r => (0.5 <=? score r)%float) (ordenados texto))));
         ("emocoes_media_confianca",
          PyInt (len (List.filter
                   (fun r => (0.1 <=? score r)%float && (score r <? 0.5)%float)
                   (ordenados texto))));
         ("emocoes_baixa_confianca",
          PyInt (len (List.filter (fun r => (score r <? 0.1)%float) (ordenados texto))))
       ]);
      ("todas_emocoes", PyList (map emocao_detalhada (ordenados texto)))
    ] /\
    fst (analisar_sentimento_detalhado_resposta texto g) = Ok resposta /\
    fst (analisar_sentimento_detalhado texto g) = Ok (json_dumps resposta).
Proof.
  intros Hc.
  destruct (contrato_ordenados _ Hc) as (Hlen & _ & _).
  pose proof (ordenados_head_maximo (inferir texto)) as Hmax.
  pose proof (analisar_sentimento_detalhado_resposta_run texto g) as Hrun.
  destruct (ordenados texto) as [|d t] eqn:E; [discriminate Hlen|].
  eexists d, _. split; [|split; [reflexivity|]].
  { eapply Hmax; [now apply contrato_comparavel|reflexivity]. }
  apply (f_equal fst) in Hrun. simpl in Hrun. split; [exact Hrun|].
  now apply json_dumps_fst.
Qed.

Lemma comparar_sentimentos_shape (textos : list string) (g : Processo) :
  forallb (fun texto => contrato (inferir texto)) textos = true ->
  exists (analises : list PyVal) (resposta : PyVal),
    resposta = PyDict [
      ("total_textos_analisados", PyInt (len textos));
      ("analises", PyList analises)
    ] /\
    fst (comparar_sentimentos_resposta textos g) = Ok resposta /\
    fst (comparar_sentimentos textos g) = Ok (json_dumps resposta) /\
    length analises = length textos /\
    forall (i : nat) (texto : string),
      nth_error textos i = Some texto ->
      contrato (inferir texto) = true /\
      exists d : Emocao,
        maximo d (inferir texto) /\
        nth_error analises i = Some (analise (Z.of_nat i + 1) texto d).
Proof.
  intros Hc. rewrite forallb_forall in Hc.
  assert (Hne : Forall (fun texto => inferir texto <> []) textos).
  { apply List.Forall_forall. intros texto Hin Hnil.
    apply Hc, contrato_length in Hin. now rewrite Hnil in Hin. }
  destruct (comparar_sentimentos_resposta_run textos g Hne)
    as (analises & Hrun & Hlen & Hnth).
  apply (f_equal fst) in Hrun. simpl in Hrun.
  eexists analises, _. split; [reflexivity|]. split; [exact Hrun|].
  split; [now apply json_dumps_fst|]. split; [exact Hlen|].
  intros i texto Hi.
  assert (Hct : contrato (inferir texto) = true).
  { apply Hc. eapply nth_error_In; eassumption. }
  split; [exact Hct|].
  destruct (Hnth i texto Hi) as (d & t & E & Hn).
  exists d. split; [|exact Hn].
  eapply ordenados_head_maximo; [|exact E]. now apply contrato_comparavel.
Qed.

Lemma Forall2_map_self {A B : Type} (P : A -> B -> Prop) (f : A -> B) (l : list A) :
  (forall a, P a (f a)) -> Forall2 P l (map f l).
Proof. intros H. induction l; simpl; constructor; auto. Qed.

(** ** The top-K tool *)

(** C1, amended: for every text whose classifier answer keeps the contract
    (28 scored labels with probabilities in [0, 1]) and every integer
    K >= 1, [analisar_sentimento] returns a response whose [top_emocoes]
    list has length min(K, 28) and lists scored labels of the answer in
    non-increasing order of probability. *)
Theorem top_emocoes_length_sorted (texto : string) (top_k : Z) (g : Processo) :
  contrato (inferir texto) = true -> (1 <= top_k)%Z ->
  exists (resposta : PyVal) (emocoes : list PyVal) (top : list Emocao),
    fst (analisar_sentimento texto top_k g) = Ok (json_dumps resposta) /\
    fst (analisar_sentimento_resposta texto top_k g) = Ok resposta /\
    campo "top_emocoes" resposta = Some (PyList emocoes) /\
    emocoes = map emocao_top top /\
    len emocoes = Z.min top_k 28 /\
    Forall (fun r => In r (inferir texto)) top /\
    StronglySorted (decrescente score) top.
Proof.
  intros Hc Hk.
  destruct (analisar_sentimento_shape texto top_k g Hc (or_introl Hk))
    as (d & resposta & _ & -> & E1 & E2).
  destruct (slice_ate_sorted_In texto top_k Hc) as (Hin & Hs).
  destruct (contrato_ordenados _ Hc) as (Hlen & _ & _).
  eexists _, _, (slice_ate (ordenados texto) top_k).
  split; [exact E2|]. split; [exact E1|]. do 2 (split; [reflexivity|]).
  split; [|split; assumption].
  unfold len. rewrite length_map. fold (len (slice_ate (ordenados texto) top_k)).
  rewrite slice_ate_len by lia. unfold len. now rewrite Hlen.
Qed.

(** C10, amended: with [top_k = 0] the tool raises instead of returning.
    For every text and every state of the process the slice
    [resultados_ordenados[:0]] is empty, its item 0 raises [IndexError], and
    so does the tool, which leaves the process as [inicializar_modelo] left
    it.  [top_k >= 1] is enough for the tool to return but is not required:
    under the contract of the classifier the tool returns exactly when
    [top_k >= 1] or [-28 < top_k < 0], and raises [IndexError] exactly when
    [top_k = 0] or [top_k <= -28]. *)
Theorem top_k_zero_raises (texto : string) (g : Processo) :
  slice_ate (ordenados texto) 0 = [] /\
  item (slice_ate (ordenados texto) 0) 0 = Raise IndexError /\
  analisar_sentimento texto 0 g = (Raise IndexError, snd (inicializar_modelo g)) /\
  (forall top_k : Z,
      contrato (inferir texto) = true ->
      ((exists s : string, fst (analisar_sentimento texto top_k g) = Ok s) <->
         (1 <= top_k \/ -28 < top_k < 0)%Z) /\
      (fst (analisar_sentimento texto top_k g) = Raise IndexError <->
         (top_k = 0 \/ top_k <= -28)%Z)).
Proof.
  split; [reflexivity|]. split; [reflexivity|]. split.
  - rewrite (surjective_pairing (analisar_sentimento texto 0 g)). f_equal.
    + apply json_dumps_raise. now rewrite analisar_sentimento_resposta_run.
    + unfold Servidor.analisar_sentimento.
      now rewrite json_dumps_snd, analisar_sentimento_resposta_run.
  - intros top_k Hc.
    assert (Hok : (1 <= top_k \/ -28 < top_k < 0)%Z ->
                  exists s : string, fst (analisar_sentimento texto top_k g) = Ok s).
    { intros Hk.
      destruct (analisar_sentimento_shape texto top_k g Hc Hk)
        as (d & resposta & _ & _ & _ & E2).
      eauto. }
    assert (Hraise : (top_k = 0 \/ top_k <= -28)%Z ->
                     fst (analisar_sentimento texto top_k g) = Raise IndexError).
    { intros Hk. destruct (contrato_ordenados _ Hc) as (Hlen & _ & _).
      apply json_dumps_raise. rewrite analisar_sentimento_resposta_run.
      now rewrite (slice_ate_nil_28 _ top_k Hlen Hk). }
    split; (split; [|assumption]).
    + intros [s Hs].
      destruct (Z_le_gt_dec 1%Z top_k) as [|H1]; [now left|].
      destruct (Z_lt_ge_dec top_k 0%Z) as [H2|H2];
        [destruct (Z_lt_ge_dec (-28) top_k) as [|H3]; [right; lia|]|].
      * rewrite Hraise in Hs by (right; lia). discriminate.
      * rewrite Hraise in Hs by (left; lia). discriminate.
    + intros Hr.
      destruct (Z.eq_dec top_k 0%Z) as [|H0]; [now left|].
      destruct (Z_le_gt_dec top_k (-28)) as [|H1]; [now right|].
      destruct Hok as [s Hs]; [lia|]. rewrite Hs in Hr. discriminate.
Qed.

(** ** The full-spectrum tool *)

(** C2: for every text whose classifier answer keeps the contract,
    [analisar_sentimento_detalhado] returns a response whose [todas_emocoes]
    list has one entry for each of the 28 scored labels of the answer, in
    non-increasing order of probability: the entries are the dictionaries
    built, in that order, from a sorted permutation [ord] of the answer.  The
    entry of a scored label carries its label in [emocao_original] and
    round(score * 100, 2) in [probabilidade], and its [nivel] is "alta" iff
    score >= 0.5, "média" iff 0.1 <= score < 0.5, and "baixa" iff
    score < 0.1. *)
Theorem todas_emocoes_sorted_tiers (texto : string) (g : Processo) :
  contrato (inferir texto) = true ->
  exists (resposta : PyVal) (emocoes : list PyVal) (ord : list Emocao),
    fst (analisar_sentimento_detalhado texto g) = Ok (json_dumps resposta) /\
    fst (analisar_sentimento_detalhado_resposta texto g) = Ok resposta /\
    campo "todas_emocoes" resposta = Some (PyList emocoes) /\
    length emocoes = 28 /\
    Permutation (inferir texto) ord /\
    StronglySorted (decrescente score) ord /\
    emocoes = map emocao_detalhada ord /\
    Forall2 (fun r e =>
      campo "emocao_original" e = Some (PyStr (label r)) /\
      campo "probabilidade" e =
        Some (PyFloat (py_round (score r * 100)%float 2)) /\
      (campo "nivel" e = Some (PyStr "alta") <->
         (0.5 <=? score r)%float = true) /\
      (campo "nivel" e = Some (PyStr "média") <->
         (0.1 <=? score r)%float && (score r <? 0.5)%float = true) /\
      (campo "nivel" e = Some (PyStr "baixa") <->
         (score r <? 0.1)%float = true)) ord emocoes.
Proof.
  intros Hc.
  destruct (analisar_sentimento_detalhado_shape texto g Hc)
    as (d & resposta & _ & -> & E1 & E2).
  destruct (contrato_ordenados _ Hc) as (Hlen & Hcomp & Hs).
  eexists _, _, (ordenados texto).
  split; [exact E2|]. split; [exact E1|]. split; [reflexivity|].
  split; [now rewrite length_map|].
  split; [apply sorted_reverse_perm|]. split; [exact Hs|].
  split; [reflexivity|].
  rewrite List.Forall_forall in Hcomp.
  assert (Hall : forall l : list Emocao,
            (forall r, In r l -> comparavel score r) ->
            Forall2 (fun r e =>
              campo "emocao_original" e = Some (PyStr (label r)) /\
              campo "probabilidade" e =
                Some (PyFloat (py_round (score r * 100)%float 2)) /\
              (campo "nivel" e = Some (PyStr "alta") <->
                 (0.5 <=? score r)%float = true) /\
              (campo "nivel" e = Some (PyStr "média") <->
                 (0.1 <=? score r)%float && (score r <? 0.5)%float = true) /\
              (campo "nivel" e = Some (PyStr "baixa") <->
                 (score r <? 0.1)%float = true)) l (map emocao_detalhada l)).
  { induction l as [|r l IH]; intros Hl; simpl; constructor.
    - destruct (nivel_tiers r (Hl r (or_introl eq_refl))) as (Ha & Hm & Hb).
      do 2 (split; [reflexivity|]).
      change (campo "nivel" (emocao_detalhada r)) with (Some (PyStr (nivel r))).
      rewrite <- Ha, <- Hm, <- Hb. repeat split; intros; congruence.
    - apply IH. intros r' Hr'. apply Hl. now right. }
  apply Hall, Hcomp.
Qed.

(** C3: for every text whose classifier answer keeps the contract, the three
    counts of [resumo] in the response of [analisar_sentimento_detalhado]
    sum to 28: each of the 28 scored labels satisfies exactly one of the
    three tier predicates, and the counts are the numbers of labels that
    satisfy each. *)
Theorem resumo_counts_sum (texto : string) (g : Processo) :
  contrato (inferir texto) = true ->
  exists (resposta resumo : PyVal) (alta media baixa : Z),
    fst (analisar_sentimento_detalhado texto g) = Ok (json_dumps resposta) /\
    fst (analisar_sentimento_detalhado_resposta texto g) = Ok resposta /\
    campo "resumo" resposta = Some resumo /\
    campo "emocoes_alta_confianca" resumo = Some (PyInt alta) /\
    campo "emocoes_media_confianca" resumo = Some (PyInt media) /\
    campo "emocoes_baixa_confianca" resumo = Some (PyInt baixa) /\
    (alta + media + baixa = 28)%Z /\
    alta = len (List.filter (fun r => (0.5 <=? score r)%float) (inferir texto)) /\
    media = len (List.filter
                   (fun r => (0.1 <=? score r)%float && (score r <? 0.5)%float)
                   (inferir texto)) /\
    baixa = len (List.filter (fun r => (score r <? 0.1)%float) (inferir texto)) /\
    Forall (fun r =>
      Nat.b2n (0.5 <=? score r)%float +
      Nat.b2n ((0.1 <=? score r)%float && (score r <? 0.5)%float) +
      Nat.b2n (score r <? 0.1)%float = 1) (inferir texto).
Proof.
  intros Hc.
  destruct (analisar_sentimento_detalhado_shape texto g Hc)
    as (d & resposta & _ & -> & E1 & E2).
  pose proof (contrato_length _ Hc) as Hlen.
  assert (Hparts : Forall (fun r =>
            Nat.b2n (0.5 <=? score r)%float +
            Nat.b2n ((0.1 <=? score r)%float && (score r <? 0.5)%float) +
            Nat.b2n (score r <? 0.1)%float = 1) (inferir texto)).
  { eapply List.Forall_impl; [|exact (contrato_comparavel _ Hc)].
    intros r Hr. now apply tiers_partition. }
  pose proof (filter_partition_length _ _ _ _ Hparts) as Hsum. rewrite Hlen in Hsum.
  assert (Hfl : forall p : Emocao -> bool,
            len (List.filter p (ordenados texto)) = len (List.filter p (inferir texto))).
  { intros p. unfold len. f_equal. symmetry.
    apply filter_perm_length, sorted_reverse_perm. }
  rewrite !Hfl in *.
  eexists _, _, _, _, _. split; [exact E2|]. split; [exact E1|].
  do 4 (split; [reflexivity|]).
  split; [unfold len; lia|]. do 3 (split; [reflexivity|]). exact Hparts.
Qed.

(** ** The comparison tool *)

(** C4: for every list of texts whose classifier answers keep the contract,
    [comparar_sentimentos] returns a response whose [analises] list has as
    many entries as there are texts, in the order of the texts: the entry at
    position i (from 0) has the i-th text in [texto] and i + 1 in
    [texto_numero]; and [total_textos_analisados] is the number of texts. *)
Theorem analises_follow_textos (textos : list string) (g : Processo) :
  forallb (fun texto => contrato (inferir texto)) textos = true ->
  exists (resposta : PyVal) (analises : list PyVal),
    fst (comparar_sentimentos textos g) = Ok (json_dumps resposta) /\
    fst (comparar_sentimentos_resposta textos g) = Ok resposta /\
    campo "total_textos_analisados" resposta = Some (PyInt (len textos)) /\
    campo "analises" resposta = Some (PyList analises) /\
    length analises = length textos /\
    forall (i : nat) (texto : string),
      nth_error textos i = Some texto ->
      exists a : PyVal,
        nth_error analises i = Some a /\
        campo "texto" a = Some (PyStr texto) /\
        campo "texto_numero" a = Some (PyInt (Z.of_nat i + 1)).
Proof.
  intros Hc.
  destruct (comparar_sentimentos_shape textos g Hc)
    as (analises & resposta & -> & E1 & E2 & Hlen & Hnth).
  eexists _, analises. split; [exact E2|]. split; [exact E1|].
  do 2 (split; [reflexivity|]). split; [exact Hlen|].
  intros i texto Hi. destruct (Hnth i texto Hi) as (_ & d & _ & ->).
  eexists. repeat split.
Qed.

(** C5: for every text of the list given to [comparar_sentimentos], under
    the contract of the classifier, the [top_3_emocoes] list of the entry of
    that text has exactly 3 elements, built from scored labels of the answer
    in non-increasing order of probability. *)
Theorem top_3_emocoes_length_sorted (textos : list string) (g : Processo) :
  forallb (fun texto => contrato (inferir texto)) textos = true ->
  exists (resposta : PyVal) (analises : list PyVal),
    fst (comparar_sentimentos textos g) = Ok (json_dumps resposta) /\
    fst (comparar_sentimentos_resposta textos g) = Ok resposta /\
    campo "analises" resposta = Some (PyList analises) /\
    forall (i : nat) (texto : string),
      nth_error textos i = Some texto ->
      exists (a : PyVal) (emocoes : list PyVal) (top : list Emocao),
        nth_error analises i = Some a /\
        campo "top_3_emocoes" a = Some (PyList emocoes) /\
        emocoes = map emocao_top3 top /\
        length emocoes = 3 /\
        Forall (fun r => In r (inferir texto)) top /\
        StronglySorted (decrescente score) top.
Proof.
  intros Hc.
  destruct (comparar_sentimentos_shape textos g Hc)
    as (analises & resposta & -> & E1 & E2 & Hlen & Hnth).
  eexists _, analises. split; [exact E2|]. split; [exact E1|].
  split; [reflexivity|].
  intros i texto Hi. destruct (Hnth i texto Hi) as (Hct & d & _ & ->).
  destruct (slice_ate_sorted_In texto 3 Hct) as (Hin & Hs).
  destruct (contrato_ordenados _ Hct) as (H28 & _ & _).
  eexists _, _, (slice_ate (ordenados texto) 3). do 3 (split; [reflexivity|]).
  split; [|split; assumption].
  rewrite length_map, slice_ate_nonneg, length_firstn, H28 by lia. reflexivity.
Qed.

(** ** Percentages, dominant label and translation *)

(** C6, amended: the entry that a tool emits for a scored label carries
    that label in [emocao_original].  In the entries of [top_emocoes]
    ([analisar_sentimento], for every [top_k] with which it returns:
    [top_k >= 1] or [-28 < top_k < 0]) and of [todas_emocoes]
    ([analisar_sentimento_detalhado]) the field [probabilidade] is the number
    round(p*100, 2) and the field [porcentagem] is the text of that number
    followed by a percent sign; in the entries of [top_3_emocoes]
    ([comparar_sentimentos]) there is no numeric field: [probabilidade] is
    itself the text of round(p*100, 2) followed by a percent sign, and there
    is no [porcentagem].  The scored labels in question are the sorted
    answer of the classifier cut by the slice of the tool. *)
Theorem percentage_fields (texto : string) (top_k : Z) (textos : list string)
    (g : Processo) :
  contrato (inferir texto) = true -> (1 <= top_k \/ -28 < top_k < 0)%Z ->
  forallb (fun texto => contrato (inferir texto)) textos = true ->
  let arredondado (r : Emocao) := py_round (score r * 100)%float 2 in
  let numero_e_texto (r : Emocao) (e : PyVal) :=
    campo "emocao_original" e = Some (PyStr (label r)) /\
    campo "probabilidade" e = Some (PyFloat (arredondado r)) /\
    campo "porcentagem" e = Some (PyStr (py_str (arredondado r) ++ "%")) in
  let so_texto (r : Emocao) (e : PyVal) :=
    campo "emocao_original" e = Some (PyStr (label r)) /\
    campo "probabilidade" e = Some (PyStr (py_str (arredondado r) ++ "%")) /\
    campo "porcentagem" e = None in
  (exists (resposta : PyVal) (emocoes : list PyVal) (top : list Emocao),
     fst (analisar_sentimento texto top_k g) = Ok (json_dumps resposta) /\
     fst (analisar_sentimento_resposta texto top_k g) = Ok resposta /\
     campo "top_emocoes" resposta = Some (PyList emocoes) /\
     top = slice_ate (ordenados texto) top_k /\
     Forall (fun r => In r (inferir texto)) top /\
     Forall2 numero_e_texto top emocoes) /\
  (exists (resposta : PyVal) (emocoes : list PyVal) (todas : list Emocao),
     fst (analisar_sentimento_detalhado texto g) = Ok (json_dumps resposta) /\
     fst (analisar_sentimento_detalhado_resposta texto g) = Ok resposta /\
     campo "todas_emocoes" resposta = Some (PyList emocoes) /\
     todas = ordenados texto /\
     Permutation (inferir texto) todas /\
     Forall2 numero_e_texto todas emocoes) /\
  (exists (resposta : PyVal) (analises : list PyVal),
     fst (comparar_sentimentos textos g) = Ok (json_dumps resposta) /\
     fst (comparar_sentimentos_resposta textos g) = Ok resposta /\
     campo "analises" resposta = Some (PyList analises) /\
     forall (i : nat) (texto : string),
       nth_error textos i = Some texto ->
       exists (a : PyVal) (emocoes : list PyVal) (top : list Emocao),
         nth_error analises i = Some a /\
         campo "top_3_emocoes" a = Some (PyList emocoes) /\
         length emocoes = 3 /\
         top = slice_ate (ordenados texto) 3 /\
         Forall (fun r => In r (inferir texto)) top /\
         Forall2 so_texto top emocoes).
Proof.
  intros Hc Hk Hcs arredondado numero_e_texto so_texto. split; [|split].
  - destruct (analisar_sentimento_shape texto top_k g Hc Hk)
      as (d & resposta & _ & -> & E1 & E2).
    destruct (slice_ate_sorted_In texto top_k Hc) as (Hin & _).
    eexists _, _, (slice_ate (ordenados texto) top_k).
    split; [exact E2|]. split; [exact E1|]. do 2 (split; [reflexivity|]).
    split; [exact Hin|].
    apply Forall2_map_self. intros r. repeat split; reflexivity.
  - destruct (analisar_sentimento_detalhado_shape texto g Hc)
      as (d & resposta & _ & -> & E1 & E2).
    eexists _, _, (ordenados texto).
    split; [exact E2|]. split; [exact E1|]. do 2 (split; [reflexivity|]).
    split; [apply sorted_reverse_perm|].
    apply Forall2_map_self. intros r. repeat split; reflexivity.
  - destruct (comparar_sentimentos_shape textos g Hcs)
      as (analises & resposta & -> & E1 & E2 & Hlen & Hnth).
    eexists _, analises. split; [exact E2|]. split; [exact E1|].
    split; [reflexivity|].
    intros i texto' Hi. destruct (Hnth i texto' Hi) as (Hct & d & _ & ->).
    destruct (slice_ate_sorted_In texto' 3 Hct) as (Hin & _).
    destruct (contrato_ordenados _ Hct) as (H28 & _ & _).
    eexists _, _, (slice_ate (ordenados texto') 3). do 2 (split; [reflexivity|]).
    split; [|split; [reflexivity|split; [exact Hin|]]].
    + rewrite length_map, slice_ate_nonneg, length_firstn, H28 by lia. reflexivity.
    + apply Forall2_map_self. intros r. repeat split; reflexivity.
Qed.

(** C7: under the contract of the classifier, the dominant label reported
    by each tool is a scored label of the answer for the text whose
    probability is largest among the 28: [emocao_dominante] is its
    translation, [emocao_dominante_original] its label, and
    [confianca_dominante] ([confianca] in [comparar_sentimentos]) the text
    of its percentage.  For [analisar_sentimento] this holds for every
    [top_k] with which the tool returns: [top_k >= 1] or [-28 < top_k < 0]. *)
Theorem dominant_is_maximal (texto : string) (top_k : Z) (textos : list string)
    (g : Processo) :
  contrato (inferir texto) = true ->
  (1 <= top_k \/ -28 < top_k < 0)%Z ->
  forallb (fun texto => contrato (inferir texto)) textos = true ->
  let descreve (d : Emocao) (confianca : string) (e : PyVal) :=
    campo "emocao_dominante" e = Some (PyStr (traducao d)) /\
    campo "emocao_dominante_original" e = Some (PyStr (label d)) /\
    campo confianca e =
      Some (PyStr (py_str (py_round (score d * 100)%float 2) ++ "%")) in
  (exists (resposta : PyVal) (d : Emocao),
     fst (analisar_sentimento texto top_k g) = Ok (json_dumps resposta) /\
     fst (analisar_sentimento_resposta texto top_k g) = Ok resposta /\
     length (inferir texto) = 28 /\ maximo d (inferir texto) /\
     descreve d "confianca_dominante" resposta) /\
  (exists (resposta : PyVal) (d : Emocao),
     fst (analisar_sentimento_detalhado texto g) = Ok (json_dumps resposta) /\
     fst (analisar_sentimento_detalhado_resposta texto g) = Ok resposta /\
     length (inferir texto) = 28 /\ maximo d (inferir texto) /\
     descreve d "confianca_dominante" resposta) /\
  (exists (resposta : PyVal) (analises : list PyVal),
     fst (comparar_sentimentos textos g) = Ok (json_dumps resposta) /\
     fst (comparar_sentimentos_resposta textos g) = Ok resposta /\
     campo "analises" resposta = Some (PyList analises) /\
     forall (i : nat) (texto : string),
       nth_error textos i = Some texto ->
       exists (a : PyVal) (d : Emocao),
         nth_error analises i = Some a /\
         length (inferir texto) = 28 /\ maximo d (inferir texto) /\
         descreve d "confianca" a).
Proof.
  intros Hc Hk Hcs descreve. pose proof (contrato_length _ Hc) as H28.
  split; [|split].
  - destruct (analisar_sentimento_shape texto top_k g Hc Hk)
      as (d & resposta & Hmax & -> & E1 & E2).
    eexists _, d. split; [exact E2|]. split; [exact E1|].
    do 2 (split; [assumption|]). repeat split.
  - destruct (analisar_sentimento_detalhado_shape texto g Hc)
      as (d & resposta & Hmax & -> & E1 & E2).
    eexists _, d. split; [exact E2|]. split; [exact E1|].
    do 2 (split; [assumption|]). repeat split.
  - destruct (comparar_sentimentos_shape textos g Hcs)
      as (analises & resposta & -> & E1 & E2 & Hlen & Hnth).
    eexists _, analises. split; [exact E2|]. split; [exact E1|].
    split; [reflexivity|].
    intros i texto' Hi. destruct (Hnth i texto' Hi) as (Hct & d & Hmax & ->).
    eexists _, d. split; [reflexivity|]. split; [now apply contrato_length|].
    split; [exact Hmax|]. repeat split.
Qed.

(** C9: every entry a tool emits for a scored label has in [emocao] the
    entry of [TRADUCAO_EMOCOES] for the label when the label is one of the
    28 keys of the table and the label itself otherwise, and has the label
    in [emocao_original]; the same holds of [emocao_dominante] and
    [emocao_dominante_original] for the dominant label. *)
Theorem localized_names (texto : string) (top_k : Z) (textos : list string)
    (g : Processo) :
  contrato (inferir texto) = true -> (1 <= top_k)%Z ->
  forallb (fun texto => contrato (inferir texto)) textos = true ->
  let nome (r : Emocao) :=
    match TRADUCAO_EMOCOES !! label r with
    | Some t => t
    | None => label r
    end in
  let nomes (r : Emocao) (e : PyVal) :=
    campo "emocao" e = Some (PyStr (nome r)) /\
    campo "emocao_original" e = Some (PyStr (label r)) in
  let dominante (r : Emocao) (e : PyVal) :=
    campo "emocao_dominante" e = Some (PyStr (nome r)) /\
    campo "emocao_dominante_original" e = Some (PyStr (label r)) in
  size TRADUCAO_EMOCOES = 28 /\
  (exists (resposta : PyVal) (emocoes : list PyVal) (top : list Emocao) (d : Emocao),
     fst (analisar_sentimento texto top_k g) = Ok (json_dumps resposta) /\
     fst (analisar_sentimento_resposta texto top_k g) = Ok resposta /\
     campo "top_emocoes" resposta = Some (PyList emocoes) /\
     Forall (fun r => In r (inferir texto)) (d :: top) /\
     Forall2 nomes top emocoes /\ dominante d resposta) /\
  (exists (resposta : PyVal) (emocoes : list PyVal) (todas : list Emocao) (d : Emocao),
     fst (analisar_sentimento_detalhado texto g) = Ok (json_dumps resposta) /\
     fst (analisar_sentimento_detalhado_resposta texto g) = Ok resposta /\
     campo "todas_emocoes" resposta = Some (PyList emocoes) /\
     Permutation (inferir texto) todas /\ In d (inferir texto) /\
     Forall2 nomes todas emocoes /\ dominante d resposta) /\
  (exists (resposta : PyVal) (analises : list PyVal),
     fst (comparar_sentimentos textos g) = Ok (json_dumps resposta) /\
     fst (comparar_sentimentos_resposta textos g) = Ok resposta /\
     campo "analises" resposta = Some (PyList analises) /\
     forall (i : nat) (texto : string),
       nth_error textos i = Some texto ->
       exists (a : PyVal) (emocoes : list PyVal) (top : list Emocao) (d : Emocao),
         nth_error analises i = Some a /\
         campo "top_3_emocoes" a = Some (PyList emocoes) /\
         Forall (fun r => In r (inferir texto)) (d :: top) /\
         Forall2 nomes top emocoes /\ dominante d a).
Proof.
  intros Hc Hk Hcs nome nomes dominante. split; [vm_compute; reflexivity|].
  split; [|split].
  - destruct (analisar_sentimento_shape texto top_k g Hc (or_introl Hk))
      as (d & resposta & Hmax & -> & E1 & E2).
    destruct (slice_ate_sorted_In texto top_k Hc) as (Hin & _).
    eexists _, _, (slice_ate (ordenados texto) top_k), d.
    split; [exact E2|]. split; [exact E1|]. split; [reflexivity|].
    split; [constructor; [apply Hmax|exact Hin]|].
    split; [|split; reflexivity].
    apply Forall2_map_self. intros r. split; reflexivity.
  - destruct (analisar_sentimento_detalhado_shape texto g Hc)
      as (d & resposta & Hmax & -> & E1 & E2).
    eexists _, _, (ordenados texto), d.
    split; [exact E2|]. split; [exact E1|]. split; [reflexivity|].
    split; [apply sorted_reverse_perm|]. split; [apply Hmax|].
    split; [|split; reflexivity].
    apply Forall2_map_self. intros r. split; reflexivity.
  - destruct (comparar_sentimentos_shape textos g Hcs)
      as (analises & resposta & -> & E1 & E2 & Hlen & Hnth).
    eexists _, analises. split; [exact E2|]. split; [exact E1|].
    split; [reflexivity|].
    intros i texto' Hi. destruct (Hnth i texto' Hi) as (Hct & d & Hmax & ->).
    destruct (slice_ate_sorted_In texto' 3 Hct) as (Hin & _).
    eexists _, _, (slice_ate (ordenados texto') 3), d. do 2 (split; [reflexivity|]).
    split; [constructor; [apply Hmax|exact Hin]|].
    split; [|split; reflexivity].
    apply Forall2_map_self. intros r. split; reflexivity.
Qed.

End Propriedades.

(* ===================================================================== *)
(** * The tools on the example classifier *)
(* ===================================================================== *)

Example exemplo_contrato : contrato (Exemplo.inferir Exemplo.texto) = true.
Proof. reflexivity. Qed.

Example exemplo_top_2 :
  fst (analisar_sentimento_resposta pipeline_novo Exemplo.inferir Exemplo.py_round
         Exemplo.py_str
         Exemplo.texto 2 processo_inicial) =
  Ok (PyDict [
    ("texto_analisado", PyStr Exemplo.texto);
    ("total_emocoes", PyInt 28);
    ("top_emocoes", PyList [
       PyDict [("emocao", PyStr "alegria"); ("emocao_original", PyStr "joy");
               ("probabilidade", PyFloat 90); ("porcentagem", PyStr "90.0%")];
       PyDict [("emocao", PyStr "empolgação"); ("emocao_original", PyStr "excitement");
               ("probabilidade", PyFloat 50); ("porcentagem", PyStr "50.0%")]
     ]);
    ("emocao_dominante", PyStr "alegria");
    ("emocao_dominante_original", PyStr "joy");
    ("confianca_dominante", PyStr "90.0%")
  ]).
Proof. vm_compute. reflexivity. Qed.

(** The tier boundaries: 0.5 is "alta", 0.1 is "média", 0.0999 is "baixa". *)
Example exemplo_niveis :
  map nivel [ {| label := "excitement"; score := 0.5 |};
              {| label := "approval"; score := 0.1 |};
              {| label := "surprise"; score := 0.0999 |} ] =
  ["alta"; "média"; "baixa"].
Proof. reflexivity. Qed.

(** A label outside the table keeps its English name. *)
Example exemplo_traducao :
  traducao {| label := "joy"; score := 0.9 |} = "alegria" /\
  traducao {| label := "boredom"; score := 0.9 |} = "boredom".
Proof. split; reflexivity. Qed.

(** Labels with equal scores keep the order the classifier gave them. *)
Example exemplo_estavel :
  map label (sorted_reverse score [
    {| label := "gratitude"; score := 0.07 |};
    {| label := "joy"; score := 0.9 |};
    {| label := "love"; score := 0.07 |} ]) =
  ["joy"; "gratitude"; "love"].
Proof. reflexivity. Qed.

(** The first call loads the model; the second finds it. *)
Example exemplo_duas_chamadas :
  executar_todas pipeline_novo Exemplo.inferir Exemplo.py_round Exemplo.py_str
    Exemplo.json_dumps
    [ChAnalisar Exemplo.texto 5; ChComparar Exemplo.textos] processo_inicial =
  {| classificador := Some {| pipeline_id := 0 |};
     pipelines_criados := 1;
     stdout := ["Carregando modelo GoEmotions... (pode levar alguns segundos)";
                "Modelo carregado com sucesso!"] |}.
Proof. vm_compute. reflexivity. Qed.

(** C1 as stated fails outside K >= 1.  With [top_k = -1] the slice drops
    the last of the 28 sorted labels: the tool returns and [top_emocoes] has
    27 entries, which is not min(-1, 28).  With [top_k = 0] the tool raises
    and there is no [top_emocoes] at all. *)
Lemma top_emocoes_nonpositive_k :
  contrato (Exemplo.inferir Exemplo.texto) = true /\
  (exists (resposta : PyVal) (emocoes : list PyVal),
     fst (analisar_sentimento pipeline_novo Exemplo.inferir Exemplo.py_round
            Exemplo.py_str
            Exemplo.json_dumps Exemplo.texto (-1) processo_inicial) =
       Ok (Exemplo.json_dumps resposta) /\
     fst (analisar_sentimento_resposta pipeline_novo Exemplo.inferir Exemplo.py_round
            Exemplo.py_str
            Exemplo.texto (-1) processo_inicial) = Ok resposta /\
     campo "top_emocoes" resposta = Some (PyList emocoes) /\
     len emocoes = 27%Z /\
     len emocoes <> Z.min (-1) 28) /\
  fst (analisar_sentimento pipeline_novo Exemplo.inferir Exemplo.py_round Exemplo.py_str
         Exemplo.json_dumps Exemplo.texto 0 processo_inicial) = Raise IndexError.
Proof.
  split; [reflexivity|]. split; [|reflexivity].
  eexists _, _. split; [|split; [vm_compute; reflexivity|]].
  - apply json_dumps_fst. vm_compute. reflexivity.
  - split; [reflexivity|]. split; [reflexivity|]. discriminate.
Qed.

Lemma top_emocoes_length_sorted_witness :
  contrato (Exemplo.inferir Exemplo.texto) = true /\ (1 <= 5)%Z /\
  exists (resposta : PyVal) (emocoes : list PyVal) (top : list Emocao),
    fst (analisar_sentimento pipeline_novo Exemplo.inferir Exemplo.py_round
           Exemplo.py_str
           Exemplo.json_dumps Exemplo.texto 5 processo_inicial) =
      Ok (Exemplo.json_dumps resposta) /\
    fst (analisar_sentimento_resposta pipeline_novo Exemplo.inferir Exemplo.py_round
           Exemplo.py_str
           Exemplo.texto 5 processo_inicial) = Ok resposta /\
    campo "top_emocoes" resposta = Some (PyList emocoes) /\
    emocoes = map (emocao_top Exemplo.py_round Exemplo.py_str) top /\
    len emocoes = Z.min 5 28 /\
    Forall (fun r => In r (Exemplo.inferir Exemplo.texto)) top /\
    StronglySorted (decrescente score) top.
Proof.
  split; [reflexivity|]. split; [lia|].
  apply (top_emocoes_length_sorted Exemplo.inferir Exemplo.py_round Exemplo.py_str
           Exemplo.json_dumps Exemplo.texto 5 processo_inicial); [reflexivity|lia].
Defined.

Lemma todas_emocoes_sorted_tiers_witness :
  contrato (Exemplo.inferir Exemplo.texto) = true /\
  exists (resposta : PyVal) (emocoes : list PyVal) (ord : list Emocao),
    fst (analisar_sentimento_detalhado_resposta pipeline_novo Exemplo.inferir
           Exemplo.py_round Exemplo.py_str Exemplo.texto processo_inicial) =
      Ok resposta /\
    campo "todas_emocoes" resposta = Some (PyList emocoes) /\
    length emocoes = 28 /\
    Permutation (Exemplo.inferir Exemplo.texto) ord /\
    StronglySorted (decrescente score) ord /\
    emocoes = map (emocao_detalhada Exemplo.py_round Exemplo.py_str) ord.
Proof.
  split; [reflexivity|].
  destruct (todas_emocoes_sorted_tiers Exemplo.inferir Exemplo.py_round Exemplo.py_str
              Exemplo.json_dumps Exemplo.texto processo_inicial)
    as (resposta & emocoes & ord & _ & H1 & H2 & H3 & H4 & H5 & H6 & _);
    [reflexivity|].
  exists resposta, emocoes, ord. auto 10.
Defined.

Lemma resumo_counts_sum_witness :
  contrato (Exemplo.inferir Exemplo.texto) = true /\
  exists (resposta resumo : PyVal) (alta media baixa : Z),
    fst (analisar_sentimento_detalhado_resposta pipeline_novo Exemplo.inferir
           Exemplo.py_round
           Exemplo.py_str Exemplo.texto processo_inicial) = Ok resposta /\
    campo "resumo" resposta = Some resumo /\
    campo "emocoes_alta_confianca" resumo = Some (PyInt alta) /\
    campo "emocoes_media_confianca" resumo = Some (PyInt media) /\
    campo "emocoes_baixa_confianca" resumo = Some (PyInt baixa) /\
    (alta + media + baixa = 28)%Z.
Proof.
  split; [reflexivity|].
  destruct (resumo_counts_sum Exemplo.inferir Exemplo.py_round Exemplo.py_str
              Exemplo.json_dumps Exemplo.texto processo_inicial)
    as (resposta & resumo & a & m & b & _ & H1 & H2 & H3 & H4 & H5 & H6 & _);
    [reflexivity|].
  exists resposta, resumo, a, m, b. auto 10.
Defined.

Lemma analises_follow_textos_witness :
  forallb (fun texto => contrato (Exemplo.inferir texto)) Exemplo.textos = true /\
  exists (resposta : PyVal) (analises : list PyVal),
    fst (comparar_sentimentos_resposta pipeline_novo Exemplo.inferir Exemplo.py_round
           Exemplo.py_str
           Exemplo.textos processo_inicial) = Ok resposta /\
    campo "total_textos_analisados" resposta = Some (PyInt 4) /\
    campo "analises" resposta = Some (PyList analises) /\
    length analises = 4.
Proof.
  split; [reflexivity|].
  destruct (analises_follow_textos Exemplo.inferir Exemplo.py_round Exemplo.py_str
              Exemplo.json_dumps Exemplo.textos processo_inicial)
    as (resposta & analises & _ & H1 & H2 & H3 & H4 & _); [reflexivity|].
  exists resposta, analises. auto.
Defined.

Lemma top_3_emocoes_length_sorted_witness :
  forallb (fun texto => contrato (Exemplo.inferir texto)) Exemplo.textos = true /\
  exists (resposta : PyVal) (analises : list PyVal),
    fst (comparar_sentimentos_resposta pipeline_novo Exemplo.inferir Exemplo.py_round
           Exemplo.py_str
           Exemplo.textos processo_inicial) = Ok resposta /\
    campo "analises" resposta = Some (PyList analises) /\
    exists (a : PyVal) (emocoes : list PyVal),
      nth_error analises 0 = Some a /\
      campo "top_3_emocoes" a = Some (PyList emocoes) /\
      length emocoes = 3.
Proof.
  split; [reflexivity|].
  destruct (top_3_emocoes_length_sorted Exemplo.inferir Exemplo.py_round Exemplo.py_str
              Exemplo.json_dumps Exemplo.textos processo_inicial)
    as (resposta & analises & _ & H1 & H2 & H3); [reflexivity|].
  exists resposta, analises. do 2 (split; [assumption|]).
  destruct (H3 0%nat _ eq_refl) as (a & emocoes & top & Ha & He & _ & Hl & _).
  exists a, emocoes. auto.
Defined.

(** C6 as stated fails for [comparar_sentimentos]: in the first entry of
    [top_3_emocoes] of the first text the field [probabilidade] is the string
    "90.0%", not the number round(0.9 * 100, 2), and there is no field
    [porcentagem]. *)
Lemma comparar_probabilidade_is_text :
  exists (resposta a e : PyVal) (analises emocoes : list PyVal),
    fst (comparar_sentimentos pipeline_novo Exemplo.inferir Exemplo.py_round
           Exemplo.py_str
           Exemplo.json_dumps Exemplo.textos processo_inicial) =
      Ok (Exemplo.json_dumps resposta) /\
    fst (comparar_sentimentos_resposta pipeline_novo Exemplo.inferir Exemplo.py_round
           Exemplo.py_str
           Exemplo.textos processo_inicial) = Ok resposta /\
    campo "analises" resposta = Some (PyList analises) /\
    nth_error analises 0 = Some a /\
    campo "emocao_dominante_original" a = Some (PyStr "joy") /\
    campo "top_3_emocoes" a = Some (PyList emocoes) /\
    nth_error emocoes 0 = Some e /\
    campo "emocao_original" e = Some (PyStr "joy") /\
    campo "probabilidade" e = Some (PyStr "90.0%") /\
    campo "probabilidade" e <> Some (PyFloat (Exemplo.py_round (0.9 * 100)%float 2)) /\
    campo "porcentagem" e = None.
Proof.
  eexists _, _, _, _, _.
  split; [|split; [vm_compute; reflexivity|]].
  - apply json_dumps_fst. vm_compute. reflexivity.
  - do 7 (split; [reflexivity|]). split; [discriminate|reflexivity].
Qed.

Lemma percentage_fields_witness :
  contrato (Exemplo.inferir Exemplo.texto) = true /\
  (1 <= 5 \/ -28 < 5 < 0)%Z /\
  forallb (fun texto => contrato (Exemplo.inferir texto)) Exemplo.textos = true /\
  exists (resposta : PyVal) (emocoes : list PyVal) (top : list Emocao),
    fst (analisar_sentimento_resposta pipeline_novo Exemplo.inferir
           Exemplo.py_round Exemplo.py_str Exemplo.texto 5 processo_inicial) =
      Ok resposta /\
    campo "top_emocoes" resposta = Some (PyList emocoes) /\
    top = slice_ate (sorted_reverse score (Exemplo.inferir Exemplo.texto)) 5 /\
    Forall2 (fun r e => campo "emocao_original" e = Some (PyStr (label r)))
            top emocoes.
Proof.
  split; [reflexivity|]. split; [left; lia|]. split; [reflexivity|].
  destruct (percentage_fields Exemplo.inferir Exemplo.py_round Exemplo.py_str
              Exemplo.json_dumps Exemplo.texto 5 Exemplo.textos processo_inicial)
    as ((resposta & emocoes & top & _ & H1 & H2 & H3 & _ & H5) & _);
    [reflexivity|left; lia|reflexivity|].
  exists resposta, emocoes, top. do 3 (split; [assumption|]).
  eapply Forall2_impl; [exact H5|]. intros r e H. apply H.
Defined.

Lemma dominant_is_maximal_witness :
  contrato (Exemplo.inferir Exemplo.texto) = true /\
  (1 <= 5 \/ -28 < 5 < 0)%Z /\
  forallb (fun texto => contrato (Exemplo.inferir texto)) Exemplo.textos = true /\
  exists (resposta : PyVal) (d : Emocao),
    fst (analisar_sentimento_resposta pipeline_novo Exemplo.inferir Exemplo.py_round
           Exemplo.py_str
           Exemplo.texto 5 processo_inicial) = Ok resposta /\
    maximo d (Exemplo.inferir Exemplo.texto) /\
    campo "emocao_dominante_original" resposta = Some (PyStr (label d)).
Proof.
  split; [reflexivity|]. split; [left; lia|]. split; [reflexivity|].
  destruct (dominant_is_maximal Exemplo.inferir Exemplo.py_round Exemplo.py_str
              Exemplo.json_dumps Exemplo.texto 5 Exemplo.textos processo_inicial)
    as ((resposta & d & _ & H1 & _ & H3 & _ & H5 & _) & _);
    [reflexivity|left; lia|reflexivity|].
  exists resposta, d. auto.
Defined.

Lemma localized_names_witness :
  contrato (Exemplo.inferir Exemplo.texto) = true /\ (1 <= 5)%Z /\
  forallb (fun texto => contrato (Exemplo.inferir texto)) Exemplo.textos = true /\
  size TRADUCAO_EMOCOES = 28 /\
  exists (resposta : PyVal) (emocoes : list PyVal),
    fst (analisar_sentimento_resposta pipeline_novo Exemplo.inferir Exemplo.py_round
           Exemplo.py_str
           Exemplo.texto 5 processo_inicial) = Ok resposta /\
    campo "top_emocoes" resposta = Some (PyList emocoes).
Proof.
  split; [reflexivity|]. split; [lia|]. split; [reflexivity|].
  destruct (localized_names Exemplo.inferir Exemplo.py_round Exemplo.py_str
              Exemplo.json_dumps Exemplo.texto 5 Exemplo.textos processo_inicial)
    as (Hsize & (resposta & emocoes & top & d & _ & H1 & H2 & _) & _);
    [reflexivity|lia|reflexivity|].
  split; [exact Hsize|]. exists resposta, emocoes. auto.
Defined.

(** C10 as stated makes [top_k >= 1] a requirement.  With [top_k = -1],
    which is not [>= 1], the slice drops the last of the 28 sorted labels
    and is not empty: the tool returns, with "joy" as the dominant label and
    27 entries in [top_emocoes]. *)
Lemma top_k_negative_returns :
  contrato (Exemplo.inferir Exemplo.texto) = true /\
  ~ (1 <= -1)%Z /\
  exists (resposta : PyVal) (emocoes : list PyVal),
    fst (analisar_sentimento pipeline_novo Exemplo.inferir Exemplo.py_round
           Exemplo.py_str Exemplo.json_dumps Exemplo.texto (-1)
           processo_inicial) = Ok (Exemplo.json_dumps resposta) /\
    fst (analisar_sentimento_resposta pipeline_novo Exemplo.inferir
           Exemplo.py_round Exemplo.py_str Exemplo.texto (-1)
           processo_inicial) = Ok resposta /\
    campo "emocao_dominante_original" resposta = Some (PyStr "joy") /\
    campo "top_emocoes" resposta = Some (PyList emocoes) /\
    len emocoes = 27%Z.
Proof.
  split; [reflexivity|]. split; [lia|].
  eexists _, _. split; [|split; [vm_compute; reflexivity|]].
  - apply json_dumps_fst. vm_compute. reflexivity.
  - repeat split; reflexivity.
Qed.

Lemma top_k_zero_raises_witness :
  contrato (Exemplo.inferir Exemplo.texto) = true /\
  analisar_sentimento pipeline_novo Exemplo.inferir Exemplo.py_round
    Exemplo.py_str Exemplo.json_dumps Exemplo.texto 0 processo_inicial =
    (Raise IndexError, snd (inicializar_modelo pipeline_novo processo_inicial)) /\
  (exists s : string,
     fst (analisar_sentimento pipeline_novo Exemplo.inferir Exemplo.py_round
            Exemplo.py_str Exemplo.json_dumps Exemplo.texto 5
            processo_inicial) = Ok s) /\
  (exists s : string,
     fst (analisar_sentimento pipeline_novo Exemplo.inferir Exemplo.py_round
            Exemplo.py_str Exemplo.json_dumps Exemplo.texto (-27)
            processo_inicial) = Ok s) /\
  fst (analisar_sentimento pipeline_novo Exemplo.inferir Exemplo.py_round
         Exemplo.py_str Exemplo.json_dumps Exemplo.texto (-28)
         processo_inicial) = Raise IndexError.
Proof.
  split; [reflexivity|].
  destruct (top_k_zero_raises Exemplo.inferir Exemplo.py_round Exemplo.py_str
              Exemplo.json_dumps Exemplo.texto processo_inicial) as (_ & _ & H0 & Hk).
  split; [exact H0|].
  assert (Hc : contrato (Exemplo.inferir Exemplo.texto) = true) by reflexivity.
  split; [|split].
  - apply (Hk 5%Z Hc). left. lia.
  - apply (Hk (-27)%Z Hc). right. lia.
  - apply (Hk (-28)%Z Hc). right. lia.
Defined.

(* ===================================================================== *)
(** * Beyond the claims: edge cases and how the tools relate *)
(* ===================================================================== *)

Lemma slice_ate_len_all {A : Type} (l : list A) (k : Z) :
  len (slice_ate l k) = fatia_len (len l) k.
Proof.
  unfold slice_ate, fatia_len, len.
  destruct (Z.ltb_spec k 0); rewrite length_firstn; lia.
Qed.

Lemma fatia_nao_vazia_len (n k : Z) :
  (0 <= n)%Z -> fatia_nao_vazia n k = true <-> (1 <= fatia_len n k)%Z.
Proof.
  intros Hn. unfold fatia_nao_vazia, fatia_len.
  destruct (Z.ltb_spec k 0), (Z.leb_spec 1 k), (Z.leb_spec 1 n), (Z.ltb_spec (- n) k);
    simpl; split; intros; try discriminate; try reflexivity; lia.
Qed.

Lemma slice_ate_prefix {A : Type} (l : list A) (k k' : Z) :
  (0 <= k <= k')%Z -> slice_ate l k = firstn (Z.to_nat k) (slice_ate l k').
Proof.
  intros H. rewrite !slice_ate_nonneg by lia. rewrite firstn_firstn.
  f_equal. lia.
Qed.

Lemma slice_ate_cons_inv {A : Type} (l : list A) (k : Z) (d : A) (t : list A) :
  slice_ate l k = d :: t -> exists t', l = d :: t'.
Proof.
  destruct (slice_ate_firstn l k) as [n ->].
  destruct n, l; simpl; try discriminate. intros [= -> _]. eauto.
Qed.

Lemma slice_ate_nil_or_cons {A : Type} (l : list A) (k : Z) :
  if fatia_nao_vazia (len l) k then exists d t, slice_ate l k = d :: t
  else slice_ate l k = [].
Proof.
  pose proof (slice_ate_len_all l k) as Hl.
  pose proof (fatia_nao_vazia_len (len l) k) as Hv.
  assert (H0 : (0 <= len l)%Z) by (unfold len; lia). specialize (Hv H0).
  destruct (fatia_nao_vazia (len l) k).
  - destruct (slice_ate l k) as [|d t]; [|eauto].
    unfold len at 1 in Hl. simpl in Hl. assert (1 <= fatia_len (len l) k)%Z by now apply Hv.
    lia.
  - destruct (slice_ate l k) as [|d t]; [reflexivity|].
    assert (Hn : ~ (1 <= fatia_len (len l) k)%Z) by (intros Hc; apply Hv in Hc; discriminate).
    unfold len at 1 in Hl. simpl in Hl. lia.
Qed.

(** A NaN score passes none of the comparisons of the tools. *)
Lemma nan_comparisons (s c : float) :
  is_nan s = true ->
  (c <=? s)%float = false /\ (s <? c)%float = false.
Proof.
  intros H. split.
  - destruct (c <=? s)%float eqn:E; [|reflexivity].
    apply FloatOrder.leb_not_nan in E as [_ E]. congruence.
  - destruct (s <? c)%float eqn:E; [|reflexivity].
    apply FloatOrder.ltb_leb, FloatOrder.leb_not_nan in E as [E _]. congruence.
Qed.

Lemma filter_sum_length {A : Type} (p1 p2 p3 q : A -> bool) (l : list A) :
  (forall x, Nat.b2n (p1 x) + Nat.b2n (p2 x) + Nat.b2n (p3 x) = Nat.b2n (q x)) ->
  length (List.filter p1 l) + length (List.filter p2 l) + length (List.filter p3 l) =
  length (List.filter q l).
Proof.
  intros H. induction l as [|x l IH]; simpl; [reflexivity|].
  specialize (H x). destruct (p1 x), (p2 x), (p3 x), (q x); simpl in *; lia.
Qed.

(** Every score is in exactly one tier, except a NaN, which is in none. *)
Lemma tiers_or_nan (s : float) :
  Nat.b2n (0.5 <=? s)%float +
  Nat.b2n ((0.1 <=? s)%float && (s <? 0.5)%float) +
  Nat.b2n (s <? 0.1)%float = Nat.b2n (negb (is_nan s)).
Proof.
  destruct (is_nan s) eqn:E.
  - destruct (nan_comparisons s 0.5 E) as (-> & ->).
    destruct (nan_comparisons s 0.1 E) as (-> & ->). reflexivity.
  - now apply tiers_partition.
Qed.

Lemma nivel_nan (r : Emocao) : is_nan (score r) = true -> nivel r = "baixa".
Proof.
  intros E. unfold nivel.
  destruct (nan_comparisons (score r) 0.5 E) as (-> & _).
  destruct (nan_comparisons (score r) 0.1 E) as (-> & _). reflexivity.
Qed.

Lemma sorted_reverse_nil_iff {A : Type} (key : A -> float) (l : list A) :
  sorted_reverse key l = [] <-> l = [].
Proof.
  split; intros H; [|now subst].
  apply (f_equal (@length _)) in H. rewrite sorted_reverse_length in H.
  now destruct l.
Qed.

Section Extras.

Variable inferir : string -> list Emocao.
Variable py_round : float -> Z -> float.
Variable py_str : float -> string.
Variable json_dumps : PyVal -> string.

Local Abbreviation ordenados texto := (sorted_reverse score (inferir texto)).
Local Abbreviation porcentagem := (porcentagem py_round py_str).
Local Abbreviation emocao_top := (emocao_top py_round py_str).
Local Abbreviation emocao_detalhada := (emocao_detalhada py_round py_str).
Local Abbreviation emocao_top3 := (emocao_top3 py_round py_str).
Local Abbreviation resposta_top := (resposta_top py_round py_str).
Local Abbreviation resposta_detalhada := (resposta_detalhada py_round py_str).
Local Abbreviation analise := (analise inferir py_round py_str).
Local Abbreviation analisar_sentimento_resposta :=
  (analisar_sentimento_resposta pipeline_novo inferir py_round py_str).
Local Abbreviation analisar_sentimento :=
  (analisar_sentimento pipeline_novo inferir py_round py_str json_dumps).
Local Abbreviation analisar_sentimento_detalhado_resposta :=
  (analisar_sentimento_detalhado_resposta pipeline_novo inferir py_round py_str).
Local Abbreviation analisar_sentimento_detalhado :=
  (analisar_sentimento_detalhado pipeline_novo inferir py_round py_str json_dumps).
Local Abbreviation comparar_laco := (comparar_laco inferir py_round py_str).
Local Abbreviation comparar_sentimentos_resposta :=
  (comparar_sentimentos_resposta pipeline_novo inferir py_round py_str).
Local Abbreviation comparar_sentimentos :=
  (comparar_sentimentos pipeline_novo inferir py_round py_str json_dumps).
Local Abbreviation executar :=
  (executar pipeline_novo inferir py_round py_str json_dumps).
Local Abbreviation executar_todas :=
  (executar_todas pipeline_novo inferir py_round py_str json_dumps).
Local Abbreviation inicializar_modelo := (inicializar_modelo pipeline_novo).

(** ** The tools for any answer of the classifier *)

Lemma analisar_sentimento_resposta_geral (texto : string) (top_k : Z) (g : Processo) :
  fst (analisar_sentimento_resposta texto top_k g) =
  match slice_ate (ordenados texto) top_k with
  | [] => Raise IndexError
  | d :: t => Ok (resposta_top texto (inferir texto) (d :: t) d)
  end.
Proof.
  pose proof (analisar_sentimento_resposta_run inferir py_round py_str texto top_k g)
    as Hrun.
  apply (f_equal fst) in Hrun. simpl in Hrun.
  destruct (slice_ate (ordenados texto) top_k) as [|d t]; exact Hrun.
Qed.

Lemma analisar_sentimento_detalhado_resposta_geral (texto : string) (g : Processo) :
  fst (analisar_sentimento_detalhado_resposta texto g) =
  match ordenados texto with
  | [] => Raise IndexError
  | d :: t => Ok (resposta_detalhada texto (d :: t) d)
  end.
Proof.
  pose proof (analisar_sentimento_detalhado_resposta_run inferir py_round py_str texto g)
    as Hrun.
  apply (f_equal fst) in Hrun. simpl in Hrun.
  destruct (ordenados texto) as [|d t]; exact Hrun.
Qed.

Lemma comparar_sentimentos_resposta_geral (textos : list string) (g : Processo) :
  Forall (fun texto => inferir texto <> []) textos ->
  exists analises : list PyVal,
    fst (comparar_sentimentos_resposta textos g) =
      Ok (PyDict [
        ("total_textos_analisados", PyInt (len textos));
        ("analises", PyList analises)
      ]) /\
    length analises = length textos /\
    forall (i : nat) (texto : string),
      nth_error textos i = Some texto ->
      exists d t, ordenados texto = d :: t /\
                  nth_error analises i = Some (analise (Z.of_nat i + 1) texto d).
Proof.
  intros H.
  destruct (comparar_sentimentos_resposta_run inferir py_round py_str textos g H)
    as (analises & Hrun & Hlen & Hnth).
  apply (f_equal fst) in Hrun. simpl in Hrun.
  exists analises. split; [exact Hrun|]. split; assumption.
Qed.

Lemma analisar_sentimento_geral (texto : string) (top_k : Z) (g : Processo) :
  match slice_ate (ordenados texto) top_k with
  | [] =>
      fst (analisar_sentimento_resposta texto top_k g) = Raise IndexError /\
      fst (analisar_sentimento texto top_k g) = Raise IndexError
  | d :: t =>
      fst (analisar_sentimento_resposta texto top_k g) =
        Ok (resposta_top texto (inferir texto) (d :: t) d) /\
      fst (analisar_sentimento texto top_k g) =
        Ok (json_dumps (resposta_top texto (inferir texto) (d :: t) d))
  end.
Proof.
  pose proof (analisar_sentimento_resposta_run inferir py_round py_str texto top_k g)
    as Hrun.
  apply (f_equal fst) in Hrun. simpl in Hrun.
  destruct (slice_ate (ordenados texto) top_k) as [|d t]; split; try exact Hrun.
  - now apply json_dumps_raise.
  - now apply json_dumps_fst.
Qed.

Lemma analisar_sentimento_detalhado_geral (texto : string) (g : Processo) :
  match ordenados texto with
  | [] =>
      fst (analisar_sentimento_detalhado_resposta texto g) = Raise IndexError /\
      fst (analisar_sentimento_detalhado texto g) = Raise IndexError
  | d :: t =>
      fst (analisar_sentimento_detalhado_resposta texto g) =
        Ok (resposta_detalhada texto (d :: t) d) /\
      fst (analisar_sentimento_detalhado texto g) =
        Ok (json_dumps (resposta_detalhada texto (d :: t) d))
  end.
Proof.
  pose proof (analisar_sentimento_detalhado_resposta_run inferir py_round py_str texto g)
    as Hrun.
  apply (f_equal fst) in Hrun. simpl in Hrun.
  destruct (ordenados texto) as [|d t]; split; try exact Hrun.
  - now apply json_dumps_raise.
  - now apply json_dumps_fst.
Qed.

Lemma comparar_sentimentos_geral (textos : list string) (g : Processo) :
  Forall (fun texto => inferir texto <> []) textos ->
  exists analises : list PyVal,
    fst (comparar_sentimentos_resposta textos g) =
      Ok (PyDict [
        ("total_textos_analisados", PyInt (len textos));
        ("analises", PyList analises)
      ]) /\
    fst (comparar_sentimentos textos g) =
      Ok (json_dumps (PyDict [
        ("total_textos_analisados", PyInt (len textos));
        ("analises", PyList analises)
      ])) /\
    length analises = length textos /\
    forall (i : nat) (texto : string),
      nth_error textos i = Some texto ->
      exists d t, ordenados texto = d :: t /\
                  nth_error analises i = Some (analise (Z.of_nat i + 1) texto d).
Proof.
  intros H.
  destruct (comparar_sentimentos_resposta_run inferir py_round py_str textos g H)
    as (analises & Hrun & Hlen & Hnth).
  apply (f_equal fst) in Hrun. simpl in Hrun.
  exists analises. split; [exact Hrun|]. split; [now apply json_dumps_fst|].
  split; assumption.
Qed.



Lemma len_ordenados (texto : string) : len (ordenados texto) = len (inferir texto).
Proof. unfold len. now rewrite sorted_reverse_length. Qed.

(** ** The top-K tool for every K *)

(** X1: for any answer of the classifier, of n labels with any scores, and
    any integer K, [analisar_sentimento] either returns or raises
    [IndexError], and which one is decided by n and K alone.  It returns
    when K >= 1 and n >= 1, or when -n < K < 0; then [total_emocoes] is n
    and [top_emocoes] has min(K, n) entries for K >= 1 and n + K entries for
    a negative K.  Otherwise (K = 0, K <= -n, or n = 0) it raises. *)
Theorem top_k_returns_or_raises (texto : string) (top_k : Z) (g : Processo) :
  if fatia_nao_vazia (len (inferir texto)) top_k then
    exists (resposta : PyVal) (emocoes : list PyVal),
      fst (analisar_sentimento texto top_k g) = Ok (json_dumps resposta) /\
      fst (analisar_sentimento_resposta texto top_k g) = Ok resposta /\
      campo "total_emocoes" resposta = Some (PyInt (len (inferir texto))) /\
      campo "top_emocoes" resposta = Some (PyList emocoes) /\
      len emocoes = fatia_len (len (inferir texto)) top_k
  else
    fst (analisar_sentimento texto top_k g) = Raise IndexError.
Proof.
  pose proof (slice_ate_nil_or_cons (ordenados texto) top_k) as Hs.
  pose proof (slice_ate_len_all (ordenados texto) top_k) as Hl.
  pose proof (analisar_sentimento_geral texto top_k g) as Hg.
  rewrite len_ordenados in Hs, Hl.
  destruct (fatia_nao_vazia (len (inferir texto)) top_k).
  - destruct Hs as (d & t & E). rewrite E in Hg, Hl. destruct Hg as [E1 E2].
    eexists _, _. split; [exact E2|]. split; [exact E1|].
    do 2 (split; [reflexivity|]).
    unfold len in *. now rewrite length_map.
  - rewrite Hs in Hg. apply Hg.
Qed.

(** X2: asking for more labels only extends the list.  For a text with a
    non-empty answer and 1 <= K <= K', both calls return and the
    [top_emocoes] of the call with K is the list of the first K entries of
    the [top_emocoes] of the call with K'. *)
Theorem top_emocoes_prefix (texto : string) (k k' : Z) (g g' : Processo) :
  inferir texto <> [] -> (1 <= k <= k')%Z ->
  exists (resposta resposta' : PyVal) (emocoes emocoes' : list PyVal),
    fst (analisar_sentimento_resposta texto k g) = Ok resposta /\
    fst (analisar_sentimento_resposta texto k' g') = Ok resposta' /\
    campo "top_emocoes" resposta = Some (PyList emocoes) /\
    campo "top_emocoes" resposta' = Some (PyList emocoes') /\
    emocoes = firstn (Z.to_nat k) emocoes'.
Proof.
  intros Hne Hk.
  pose proof (analisar_sentimento_resposta_geral texto k g) as H1.
  pose proof (analisar_sentimento_resposta_geral texto k' g') as H2.
  pose proof (slice_ate_prefix (ordenados texto) k k') as Hp.
  destruct (ordenados texto) as [|d t] eqn:E.
  { apply sorted_reverse_nil_iff in E. contradiction. }
  destruct (slice_ate_cons_pos d t k) as [t1 E1]; [lia|].
  destruct (slice_ate_cons_pos d t k') as [t2 E2]; [lia|].
  rewrite E1 in H1. rewrite E2 in H2.
  eexists _, _, _, _. split; [exact H1|]. split; [exact H2|].
  do 2 (split; [reflexivity|]).
  rewrite firstn_map. f_equal. rewrite <- E1, <- E2. apply Hp. lia.
Qed.

(** ** Empty answers *)


(** ** How the three tools agree *)

(** A slice that has an element starts with the head of the list. *)
Lemma slice_ate_head_of (texto : string) (top_k : Z) :
  fatia_nao_vazia (len (inferir texto)) top_k = true ->
  exists (d : Emocao) (t t1 : list Emocao),
    ordenados texto = d :: t /\ slice_ate (ordenados texto) top_k = d :: t1.
Proof.
  intros Hk. pose proof (slice_ate_nil_or_cons (ordenados texto) top_k) as Hs.
  rewrite len_ordenados, Hk in Hs. destruct Hs as (d & t1 & E).
  destruct (slice_ate_cons_inv _ _ _ _ E) as [t Et]. exists d, t, t1. auto.
Qed.

Lemma ordenados_cons (texto : string) :
  inferir texto <> [] -> exists d t, ordenados texto = d :: t.
Proof.
  intros Hne. destruct (ordenados texto) as [|d t] eqn:E; [|eauto].
  apply sorted_reverse_nil_iff in E. contradiction.
Qed.

Lemma nth_error_slice_ate {A : Type} (l : list A) (k : Z) (j : nat) (x : A) :
  nth_error (slice_ate l k) j = Some x -> nth_error l j = Some x.
Proof.
  destruct (slice_ate_firstn l k) as [n ->]. rewrite nth_error_firstn.
  destruct (j <? n)%nat; [auto|discriminate].
Qed.

(** X5: the dominant label is the first entry of the ranking.  Whenever a
    tool returns, the first entry of [top_emocoes] ([todas_emocoes],
    [top_3_emocoes]) carries the same translated name, original label and
    percentage text as the fields [emocao_dominante],
    [emocao_dominante_original] and [confianca_dominante] ([confianca]) of
    the same response. *)
Theorem dominant_is_first_entry (texto : string) (top_k : Z) (textos : list string)
    (g : Processo) :
  inferir texto <> [] ->
  fatia_nao_vazia (len (inferir texto)) top_k = true ->
  Forall (fun texto => inferir texto <> []) textos ->
  (exists (resposta e0 : PyVal) (resto : list PyVal) (nome rotulo pct : string),
     fst (analisar_sentimento_resposta texto top_k g) = Ok resposta /\
     campo "top_emocoes" resposta = Some (PyList (e0 :: resto)) /\
     campo "emocao" e0 = Some (PyStr nome) /\
     campo "emocao_dominante" resposta = Some (PyStr nome) /\
     campo "emocao_original" e0 = Some (PyStr rotulo) /\
     campo "emocao_dominante_original" resposta = Some (PyStr rotulo) /\
     campo "porcentagem" e0 = Some (PyStr pct) /\
     campo "confianca_dominante" resposta = Some (PyStr pct)) /\
  (exists (resposta e0 : PyVal) (resto : list PyVal) (nome rotulo pct : string),
     fst (analisar_sentimento_detalhado_resposta texto g) = Ok resposta /\
     campo "todas_emocoes" resposta = Some (PyList (e0 :: resto)) /\
     campo "emocao" e0 = Some (PyStr nome) /\
     campo "emocao_dominante" resposta = Some (PyStr nome) /\
     campo "emocao_original" e0 = Some (PyStr rotulo) /\
     campo "emocao_dominante_original" resposta = Some (PyStr rotulo) /\
     campo "porcentagem" e0 = Some (PyStr pct) /\
     campo "confianca_dominante" resposta = Some (PyStr pct)) /\
  (exists (resposta : PyVal) (analises : list PyVal),
     fst (comparar_sentimentos_resposta textos g) = Ok resposta /\
     campo "analises" resposta = Some (PyList analises) /\
     forall (i : nat) (texto : string),
       nth_error textos i = Some texto ->
       exists (a e0 : PyVal) (resto : list PyVal) (nome rotulo pct : string),
         nth_error analises i = Some a /\
         campo "top_3_emocoes" a = Some (PyList (e0 :: resto)) /\
         campo "emocao" e0 = Some (PyStr nome) /\
         campo "emocao_dominante" a = Some (PyStr nome) /\
         campo "emocao_original" e0 = Some (PyStr rotulo) /\
         campo "emocao_dominante_original" a = Some (PyStr rotulo) /\
         campo "probabilidade" e0 = Some (PyStr pct) /\
         campo "confianca" a = Some (PyStr pct)).
Proof.
  intros Hne Hk Hnes. split; [|split].
  - pose proof (analisar_sentimento_resposta_geral texto top_k g) as H1.
    destruct (slice_ate_head_of texto top_k Hk) as (d & t & t1 & _ & E).
    rewrite E in H1.
    eexists _, _, _, _, _, _. split; [exact H1|]. repeat split.
  - pose proof (analisar_sentimento_detalhado_resposta_geral texto g) as H2.
    destruct (ordenados_cons texto Hne) as (d & t & E).
    rewrite E in H2.
    eexists _, _, _, _, _, _. split; [exact H2|]. repeat split.
  - destruct (comparar_sentimentos_resposta_geral textos g Hnes)
      as (analises & E1 & _ & Hnth).
    eexists _, analises. split; [exact E1|]. split; [reflexivity|].
    intros i texto' Hi. destruct (Hnth i texto' Hi) as (d & t & E & Ha).
    destruct (slice_ate_cons_pos d t 3) as [t3 E3]; [lia|].
    eexists _, _, _, _, _, _. split; [exact Ha|].
    unfold Servidor.analise. rewrite E, E3. repeat split.
Qed.

(** X6: the three tools name the same dominant label for the same text.
    For a text with a non-empty answer, the responses of
    [analisar_sentimento] (for any [top_k] with which it returns), of
    [analisar_sentimento_detalhado] and the entry of the text in
    [comparar_sentimentos] have the same [emocao_dominante], the same
    [emocao_dominante_original] and the same confidence text. *)
Theorem dominant_agrees_across_tools (texto : string) (top_k : Z)
    (textos : list string) (i : nat) (g1 g2 g3 : Processo) :
  fatia_nao_vazia (len (inferir texto)) top_k = true ->
  Forall (fun texto => inferir texto <> []) textos ->
  nth_error textos i = Some texto ->
  exists (r1 r2 r3 a : PyVal) (analises : list PyVal) (nome rotulo pct : string),
    fst (analisar_sentimento_resposta texto top_k g1) = Ok r1 /\
    fst (analisar_sentimento_detalhado_resposta texto g2) = Ok r2 /\
    fst (comparar_sentimentos_resposta textos g3) = Ok r3 /\
    campo "analises" r3 = Some (PyList analises) /\
    nth_error analises i = Some a /\
    campo "emocao_dominante" r1 = Some (PyStr nome) /\
    campo "emocao_dominante" r2 = Some (PyStr nome) /\
    campo "emocao_dominante" a = Some (PyStr nome) /\
    campo "emocao_dominante_original" r1 = Some (PyStr rotulo) /\
    campo "emocao_dominante_original" r2 = Some (PyStr rotulo) /\
    campo "emocao_dominante_original" a = Some (PyStr rotulo) /\
    campo "confianca_dominante" r1 = Some (PyStr pct) /\
    campo "confianca_dominante" r2 = Some (PyStr pct) /\
    campo "confianca" a = Some (PyStr pct).
Proof.
  intros Hk Hnes Hi.
  pose proof (analisar_sentimento_resposta_geral texto top_k g1) as H1.
  pose proof (analisar_sentimento_detalhado_resposta_geral texto g2) as H2.
  destruct (comparar_sentimentos_resposta_geral textos g3 Hnes)
    as (analises & E3 & _ & Hnth).
  destruct (Hnth i texto Hi) as (d' & t' & E' & Ha).
  destruct (slice_ate_head_of texto top_k Hk) as (d & t & t1 & E & Es).
  rewrite E in E'. injection E' as <- <-.
  rewrite Es in H1. rewrite E in H2.
  eexists _, _, _, _, analises, _, _, _.
  split; [exact H1|]. split; [exact H2|]. split; [exact E3|].
  split; [reflexivity|]. split; [exact Ha|]. repeat split.
Qed.

(** X7: the three tools rank the labels of a text in the same order.  Entry
    j of [top_emocoes] has the same [emocao], [emocao_original],
    [probabilidade] and [porcentagem] as entry j of [todas_emocoes]; entry j
    of the text's [top_3_emocoes] has the same [emocao] and
    [emocao_original], and its [probabilidade] is the [porcentagem] of entry
    j of [todas_emocoes]. *)
Theorem rankings_agree_across_tools (texto : string) (top_k : Z)
    (textos : list string) (i : nat) (g1 g2 g3 : Processo) :
  fatia_nao_vazia (len (inferir texto)) top_k = true ->
  Forall (fun texto => inferir texto <> []) textos ->
  nth_error textos i = Some texto ->
  exists (r1 r2 r3 a : PyVal) (analises es1 es2 es3 : list PyVal),
    fst (analisar_sentimento_resposta texto top_k g1) = Ok r1 /\
    fst (analisar_sentimento_detalhado_resposta texto g2) = Ok r2 /\
    fst (comparar_sentimentos_resposta textos g3) = Ok r3 /\
    campo "analises" r3 = Some (PyList analises) /\
    nth_error analises i = Some a /\
    campo "top_emocoes" r1 = Some (PyList es1) /\
    campo "todas_emocoes" r2 = Some (PyList es2) /\
    campo "top_3_emocoes" a = Some (PyList es3) /\
    (forall (j : nat) (e1 : PyVal),
        nth_error es1 j = Some e1 ->
        exists e2 : PyVal,
          nth_error es2 j = Some e2 /\
          campo "emocao" e1 = campo "emocao" e2 /\
          campo "emocao_original" e1 = campo "emocao_original" e2 /\
          campo "probabilidade" e1 = campo "probabilidade" e2 /\
          campo "porcentagem" e1 = campo "porcentagem" e2 /\
          campo "porcentagem" e1 <> None) /\
    (forall (j : nat) (e3 : PyVal),
        nth_error es3 j = Some e3 ->
        exists e2 : PyVal,
          nth_error es2 j = Some e2 /\
          campo "emocao" e3 = campo "emocao" e2 /\
          campo "emocao_original" e3 = campo "emocao_original" e2 /\
          campo "probabilidade" e3 = campo "porcentagem" e2 /\
          campo "probabilidade" e3 <> None).
Proof.
  intros Hk Hnes Hi.
  pose proof (analisar_sentimento_resposta_geral texto top_k g1) as H1.
  pose proof (analisar_sentimento_detalhado_resposta_geral texto g2) as H2.
  destruct (comparar_sentimentos_resposta_geral textos g3 Hnes)
    as (analises & E3 & _ & Hnth).
  destruct (Hnth i texto Hi) as (d' & t' & E' & Ha).
  destruct (slice_ate_head_of texto top_k Hk) as (d & t & t1 & E & Es).
  rewrite E in E'. injection E' as <- <-.
  pose proof (nth_error_slice_ate (ordenados texto) top_k) as Hs1.
  pose proof (nth_error_slice_ate (ordenados texto) 3) as Hs3.
  rewrite Es in H1, Hs1. rewrite E in H2.
  eexists _, _, _, _, analises, _, _, _.
  split; [exact H1|]. split; [exact H2|]. split; [exact E3|].
  split; [reflexivity|]. split; [exact Ha|].
  do 3 (split; [reflexivity|]). split.
  - intros j e1 Hj. rewrite nth_error_map in Hj.
    destruct (nth_error (d :: t1) j) as [r|] eqn:Er; [|discriminate].
    simpl in Hj. injection Hj as <-. apply Hs1 in Er. rewrite E in Er.
    exists (emocao_detalhada r). split; [now apply map_nth_error|].
    repeat split. discriminate.
  - intros j e3 Hj. rewrite nth_error_map in Hj.
    destruct (nth_error (slice_ate (ordenados texto) 3) j) as [r|] eqn:Er;
      [|discriminate].
    simpl in Hj. injection Hj as <-. apply Hs3 in Er. rewrite E in Er.
    exists (emocao_detalhada r). split; [now apply map_nth_error|].
    repeat split. discriminate.
Qed.

(** ** Scores off the contract, ties and tiers *)

(** X8: [analisar_sentimento_detalhado] on any non-empty answer, NaN scores
    included.  The tool returns, [todas_emocoes] has one entry for each
    label of the answer (the entries follow a permutation of it), and the
    three counts of [resumo] sum to the number of labels whose score is not
    a NaN: a label with a NaN score gets the [nivel] "baixa" but is counted
    in none of the three tiers. *)
Theorem nan_scores_are_not_counted (texto : string) (g : Processo) :
  inferir texto <> [] ->
  exists (resposta resumo : PyVal) (emocoes : list PyVal) (ord : list Emocao)
         (alta media baixa : Z),
    fst (analisar_sentimento_detalhado texto g) = Ok (json_dumps resposta) /\
    fst (analisar_sentimento_detalhado_resposta texto g) = Ok resposta /\
    campo "todas_emocoes" resposta = Some (PyList emocoes) /\
    Permutation (inferir texto) ord /\
    length emocoes = length (inferir texto) /\
    Forall2 (fun r e =>
      campo "emocao_original" e = Some (PyStr (label r)) /\
      (is_nan (score r) = true -> campo "nivel" e = Some (PyStr "baixa")))
      ord emocoes /\
    campo "resumo" resposta = Some resumo /\
    campo "emocoes_alta_confianca" resumo = Some (PyInt alta) /\
    campo "emocoes_media_confianca" resumo = Some (PyInt media) /\
    campo "emocoes_baixa_confianca" resumo = Some (PyInt baixa) /\
    (alta + media + baixa =
       len (List.filter (fun r => negb (is_nan (score r))) (inferir texto)))%Z.
Proof.
  intros Hne.
  pose proof (analisar_sentimento_detalhado_geral texto g) as H2.
  pose proof (sorted_reverse_perm score (inferir texto)) as Hp.
  pose proof (filter_sum_length
                (fun r => (0.5 <=? score r)%float)
                (fun r => (0.1 <=? score r)%float && (score r <? 0.5)%float)
                (fun r => (score r <? 0.1)%float)
                (fun r => negb (is_nan (score r)))
                (ordenados texto) (fun r => tiers_or_nan (score r))) as Hsum.
  rewrite <- (filter_perm_length (fun r => negb (is_nan (score r))) _ _ Hp) in Hsum.
  pose proof (Permutation_length Hp) as Hlen.
  destruct (ordenados texto) as [|d t] eqn:E.
  { apply sorted_reverse_nil_iff in E. contradiction. }
  destruct H2 as [E1 E2].
  eexists _, _, _, (d :: t), _, _, _.
  split; [exact E2|]. split; [exact E1|]. split; [reflexivity|].
  split; [exact Hp|]. split; [now rewrite length_map|].
  split; [|do 4 (split; [reflexivity|]); unfold len; lia].
  apply Forall2_map_self. intros r. split; [reflexivity|].
  intros Hn. change (campo "nivel" (emocao_detalhada r)) with (Some (PyStr (nivel r))).
  now rewrite nivel_nan.
Qed.

Lemma filter_nil {A : Type} (p : A -> bool) (l : list A) :
  Forall (fun x => p x = false) l -> List.filter p l = [].
Proof. induction 1 as [|x l Hx _ IH]; simpl; [reflexivity|]. now rewrite Hx. Qed.

(** In a list sorted by non-increasing score the tiers come in blocks. *)
Lemma niveis_em_blocos (l : list Emocao) :
  Forall (comparavel score) l -> StronglySorted (decrescente score) l ->
  map nivel l =
    (repeat "alta" (length (List.filter (fun r => (0.5 <=? score r)%float) l)) ++
     repeat "média"
       (length (List.filter
                  (fun r => (0.1 <=? score r)%float && (score r <? 0.5)%float) l)) ++
     repeat "baixa" (length (List.filter (fun r => (score r <? 0.1)%float) l)))%list.
Proof.
  intros Hc Hs. induction Hs as [|x l Hs IH Hx]; [reflexivity|].
  apply Forall_cons_iff in Hc as [Hcx Hc]. specialize (IH Hc).
  assert (Hbelow : forall c : float,
            (c <=? score x)%float = false ->
            Forall (fun y => (c <=? score y)%float = false) l).
  { intros c Hcx'. eapply List.Forall_impl; [|exact Hx].
    intros y Hy. destruct (c <=? score y)%float eqn:Ey; [|reflexivity].
    rewrite <- Hcx'. symmetry. exact (FloatOrder.leb_trans _ _ _ Ey Hy). }
  simpl map. simpl List.filter. unfold nivel at 1.
  rewrite (ltb_half (score x)), (ltb_tenth (score x)) by exact Hcx.
  pose proof (leb_half_tenth (score x)) as Hht.
  destruct (0.5 <=? score x)%float eqn:Ea.
  - rewrite Hht by reflexivity. simpl. now rewrite IH.
  - pose proof (filter_nil (fun r => (0.5 <=? score r)%float) l (Hbelow _ Ea)) as Hf1.
    rewrite Hf1 in *. destruct (0.1 <=? score x)%float eqn:Eb; simpl.
    + now rewrite IH.
    + assert (Hf2 : List.filter
                (fun r => (0.1 <=? score r)%float && (score r <? 0.5)%float) l = []).
      { apply filter_nil. eapply List.Forall_impl; [|exact (Hbelow _ Eb)].
        intros y Hy. simpl in Hy. now rewrite Hy. }
      rewrite Hf2 in *. simpl in *. now rewrite IH.
Qed.

(** X9: under the contract of the classifier, [todas_emocoes] is grouped by
    tier: read in order, the [nivel] fields are first "alta" as many times
    as [emocoes_alta_confianca] says, then "média" as many times as
    [emocoes_media_confianca], then "baixa" as many times as
    [emocoes_baixa_confianca]. *)
Theorem todas_emocoes_grouped_by_tier (texto : string) (g : Processo) :
  contrato (inferir texto) = true ->
  exists (resposta resumo : PyVal) (emocoes : list PyVal) (alta media baixa : Z),
    fst (analisar_sentimento_detalhado_resposta texto g) = Ok resposta /\
    campo "todas_emocoes" resposta = Some (PyList emocoes) /\
    campo "resumo" resposta = Some resumo /\
    campo "emocoes_alta_confianca" resumo = Some (PyInt alta) /\
    campo "emocoes_media_confianca" resumo = Some (PyInt media) /\
    campo "emocoes_baixa_confianca" resumo = Some (PyInt baixa) /\
    campos "nivel" emocoes =
      map (fun s => Some (PyStr s))
          (repeat "alta" (Z.to_nat alta) ++ repeat "média" (Z.to_nat media) ++
           repeat "baixa" (Z.to_nat baixa))%list.
Proof.
  intros Hct.
  pose proof (analisar_sentimento_detalhado_resposta_geral texto g) as H2.
  destruct (contrato_ordenados _ Hct) as (Hlen & Hcomp & Hs).
  pose proof (niveis_em_blocos _ Hcomp Hs) as Hb.
  destruct (ordenados texto) as [|d t] eqn:E; [discriminate Hlen|].
  pose proof H2 as E1.
  eexists _, _, _, _, _, _. split; [exact E1|]. do 5 (split; [reflexivity|]).
  unfold campos, len. rewrite !Nat2Z.id, <- Hb, !map_map. reflexivity.
Qed.

(** X10: ties keep the classifier's order.  Under the contract, the labels
    of [todas_emocoes] that have one and the same score appear in the order
    in which the classifier returned them. *)
Theorem ties_keep_classifier_order (texto : string) (g : Processo) (v : float) :
  contrato (inferir texto) = true ->
  exists (resposta : PyVal) (emocoes : list PyVal) (ord : list Emocao),
    fst (analisar_sentimento_detalhado_resposta texto g) = Ok resposta /\
    campo "todas_emocoes" resposta = Some (PyList emocoes) /\
    campos "emocao_original" emocoes = map (fun r => Some (PyStr (label r))) ord /\
    StronglySorted (decrescente score) ord /\
    List.filter (fun r => (score r =? v)%float) ord =
    List.filter (fun r => (score r =? v)%float) (inferir texto).
Proof.
  intros Hct.
  pose proof (analisar_sentimento_detalhado_resposta_geral texto g) as H2.
  destruct (contrato_ordenados _ Hct) as (Hlen & _ & Hs).
  pose proof (sorted_reverse_stable score v (inferir texto)) as Hst.
  destruct (ordenados texto) as [|d t] eqn:E; [discriminate Hlen|].
  pose proof H2 as E1.
  eexists _, _, (d :: t). split; [exact E1|]. split; [reflexivity|].
  split; [|split; assumption].
  unfold campos. rewrite map_map. reflexivity.
Qed.

(** ** The process and the comparison loop *)

(** X12: in [comparar_sentimentos] the entry of a text depends on the text
    and on its position only.  When the same text stands at position i of
    one list and at position j of another, the two entries differ in
    [texto_numero] (i + 1 and j + 1) and agree on every other key. *)
Theorem analise_depends_on_its_text_only (textos textos' : list string)
    (i j : nat) (texto : string) (g g' : Processo) :
  Forall (fun texto => inferir texto <> []) textos ->
  Forall (fun texto => inferir texto <> []) textos' ->
  nth_error textos i = Some texto -> nth_error textos' j = Some texto ->
  exists (r r' a a' : PyVal) (analises analises' : list PyVal),
    fst (comparar_sentimentos_resposta textos g) = Ok r /\
    fst (comparar_sentimentos_resposta textos' g') = Ok r' /\
    campo "analises" r = Some (PyList analises) /\
    campo "analises" r' = Some (PyList analises') /\
    nth_error analises i = Some a /\
    nth_error analises' j = Some a' /\
    campo "texto_numero" a = Some (PyInt (Z.of_nat i + 1)) /\
    campo "texto_numero" a' = Some (PyInt (Z.of_nat j + 1)) /\
    campo "texto" a = Some (PyStr texto) /\
    forall k : string, k <> "texto_numero" -> campo k a = campo k a'.
Proof.
  intros Hne Hne' Hi Hj.
  destruct (comparar_sentimentos_resposta_geral textos g Hne)
    as (analises & E & _ & Hnth).
  destruct (comparar_sentimentos_resposta_geral textos' g' Hne')
    as (analises' & E' & _ & Hnth').
  destruct (Hnth i texto Hi) as (d & t & Ed & Ha).
  destruct (Hnth' j texto Hj) as (d' & t' & Ed' & Ha').
  rewrite Ed in Ed'. injection Ed' as <- <-.
  eexists _, _, _, _, analises, analises'.
  split; [exact E|]. split; [exact E'|]. do 2 (split; [reflexivity|]).
  split; [exact Ha|]. split; [exact Ha'|]. do 3 (split; [reflexivity|]).
  intros k Hk. unfold Servidor.analise. simpl.
  destruct (String.eqb_spec k "texto_numero"); [contradiction|reflexivity].
Qed.

(** X13: [top_3_emocoes] holds the whole ranking when the answer is short.
    For every text of the list, whose answer has n >= 1 labels with any
    scores, the entry's [top_3_emocoes] has min(3, n) entries. *)
Theorem top_3_emocoes_of_short_answers (textos : list string) (g : Processo) :
  Forall (fun texto => inferir texto <> []) textos ->
  exists (resposta : PyVal) (analises : list PyVal),
    fst (comparar_sentimentos textos g) = Ok (json_dumps resposta) /\
    fst (comparar_sentimentos_resposta textos g) = Ok resposta /\
    campo "analises" resposta = Some (PyList analises) /\
    forall (i : nat) (texto : string),
      nth_error textos i = Some texto ->
      exists (a : PyVal) (emocoes : list PyVal),
        nth_error analises i = Some a /\
        campo "top_3_emocoes" a = Some (PyList emocoes) /\
        len emocoes = Z.min 3 (len (inferir texto)).
Proof.
  intros Hne.
  destruct (comparar_sentimentos_geral textos g Hne)
    as (analises & E1 & E2 & _ & Hnth).
  eexists _, analises. split; [exact E2|]. split; [exact E1|].
  split; [reflexivity|].
  intros i texto Hi. destruct (Hnth i texto Hi) as (d & t & _ & Ha).
  eexists _, _. split; [exact Ha|]. split; [reflexivity|].
  unfold len at 1. rewrite length_map.
  fold (len (slice_ate (ordenados texto) 3)).
  rewrite slice_ate_len by lia. now rewrite len_ordenados.
Qed.

End Extras.

(* ===================================================================== *)
(** * Loading the model, when [pipeline(...)] may raise *)
(* ===================================================================== *)

(** In this section [pipeline] is any outcome of the call [pipeline(...)]:
    it may raise, in some states of the process or in all of them. *)
Section Carga.

Variable pipeline : Processo -> Res Pipeline.
Variable inferir : string -> list Emocao.
Variable py_round : float -> Z -> float.
Variable py_str : float -> string.
Variable json_dumps : PyVal -> string.

Local Abbreviation inicializar_modelo := (inicializar_modelo pipeline).
Local Abbreviation comparar_laco := (comparar_laco inferir py_round py_str).
Local Abbreviation comparar_sentimentos_resposta :=
  (comparar_sentimentos_resposta pipeline inferir py_round py_str).
Local Abbreviation comparar_sentimentos :=
  (comparar_sentimentos pipeline inferir py_round py_str json_dumps).
Local Abbreviation executar :=
  (executar pipeline inferir py_round py_str json_dumps).
Local Abbreviation executar_todas :=
  (executar_todas pipeline inferir py_round py_str json_dumps).

(** Every call, returning or raising, changes the process as
    [inicializar_modelo()] does. *)
Lemma executar_como_inicializar (c : Chamada) (g : Processo) :
  executar c g = snd (inicializar_modelo g).
Proof.
  destruct c as [|texto top_k|texto|textos]; simpl; [reflexivity| | |].
  - unfold Servidor.analisar_sentimento, Servidor.analisar_sentimento_resposta.
    rewrite json_dumps_snd. unfold bind at 1.
    destruct (inicializar_modelo g) as [[m|e] g']; [|reflexivity].
    unfold bind, lift, item.
    destruct (slice_ate (sorted_reverse score (chamar inferir m texto)) top_k);
      reflexivity.
  - unfold Servidor.analisar_sentimento_detalhado,
      Servidor.analisar_sentimento_detalhado_resposta.
    rewrite json_dumps_snd. unfold bind at 1.
    destruct (inicializar_modelo g) as [[m|e] g']; [|reflexivity].
    unfold bind, lift, item.
    destruct (sorted_reverse score (chamar inferir m texto)); reflexivity.
  - unfold Servidor.comparar_sentimentos, Servidor.comparar_sentimentos_resposta.
    rewrite json_dumps_snd. unfold bind at 1.
    destruct (inicializar_modelo g) as [[m|e] g']; [|reflexivity].
    pose proof (comparar_laco_snd inferir py_round py_str m textos 1 [] g') as Hs.
    unfold bind, ret.
    destruct (comparar_laco m 1 textos [] g') as [[a|e] g'']; simpl in *; congruence.
Qed.

Lemma executar_todas_classificador (cs : list Chamada) (g : Processo) (c : Pipeline) :
  classificador g = Some c -> executar_todas cs g = g.
Proof.
  intros H. unfold Servidor.executar_todas.
  induction cs as [|c' cs IH]; simpl; [reflexivity|].
  rewrite executar_como_inicializar, (inicializar_modelo_cached _ g c H). exact IH.
Qed.

(** One attempt to load the model after [n] attempts that raised. *)
Lemma inicializar_modelo_apos_falhas (n : nat) :
  inicializar_modelo (apos_falhas n) =
  match pipeline (apos_falhas (S n)) with
  | Ok c => (Ok c, apos_carga n c)
  | Raise e => (Raise e, apos_falhas (S n))
  end.
Proof.
  unfold Servidor.inicializar_modelo. simpl classificador. cbv iota.
  change (stdout (apos_falhas n)) with
    (repeat "Carregando modelo GoEmotions... (pode levar alguns segundos)" n).
  simpl pipelines_criados.
  rewrite <- repeat_cons.
  change {| classificador := None; pipelines_criados := 0;
            stdout := "Carregando modelo GoEmotions... (pode levar alguns segundos)"
                      :: repeat
                           "Carregando modelo GoEmotions... (pode levar alguns segundos)"
                           n |}
    with (apos_falhas (S n)).
  destruct (pipeline (apos_falhas (S n))); reflexivity.
Qed.

Lemma executar_todas_apos_falhas (cs : list Chamada) (n : nat) :
  (executar_todas cs (apos_falhas n) = apos_falhas (n + length cs) /\
   forall i : nat, n <= i < n + length cs ->
     exists e : Excecao, pipeline (apos_falhas (S i)) = Raise e) \/
  (exists (m : nat) (c : Pipeline),
     n <= m < n + length cs /\
     (forall i : nat, n <= i < m ->
        exists e : Excecao, pipeline (apos_falhas (S i)) = Raise e) /\
     pipeline (apos_falhas (S m)) = Ok c /\
     executar_todas cs (apos_falhas n) = apos_carga m c).
Proof.
  revert n. induction cs as [|c cs IH]; intros n.
  - left. simpl. rewrite Nat.add_0_r. split; [reflexivity|]. intros i Hi. lia.
  - unfold Servidor.executar_todas. simpl fold_left.
    rewrite executar_como_inicializar, inicializar_modelo_apos_falhas.
    change (fold_left _ cs ?s) with (executar_todas cs s).
    destruct (pipeline (apos_falhas (S n))) as [novo|e] eqn:E; simpl snd.
    + right. exists n, novo. split; [simpl; lia|]. split; [intros i Hi; lia|].
      split; [exact E|].
      now apply executar_todas_classificador with (c := novo).
    + destruct (IH (S n)) as [[Hg Hf]|(m & novo & Hm & Hf & Hok & Hg)].
      * left. split; [rewrite Hg; f_equal; simpl; lia|].
        intros i Hi. destruct (Nat.eq_dec i n) as [->|Hne]; [eauto|].
        apply Hf. simpl in Hi. lia.
      * right. exists m, novo. split; [simpl; lia|]. split; [|split; assumption].
        intros i Hi. destruct (Nat.eq_dec i n) as [->|Hne]; [eauto|].
        apply Hf. lia.
Qed.

(** X4: [comparar_sentimentos] of the empty list analyses no text.  For
    every classifier and every state of the process it returns exactly when
    its call of [inicializar_modelo()] returns, and then
    [total_textos_analisados] is 0 and [analises] is the empty list; when
    [inicializar_modelo()] raises, because [pipeline(...)] raised, the tool
    raises the same exception.  In both cases the process is left as
    [inicializar_modelo()] left it. *)
Theorem comparar_sentimentos_empty (g : Processo) :
  match fst (inicializar_modelo g) with
  | Ok _ =>
      fst (comparar_sentimentos [] g) =
        Ok (json_dumps (PyDict [
          ("total_textos_analisados", PyInt 0);
          ("analises", PyList [])
        ])) /\
      fst (comparar_sentimentos_resposta [] g) =
        Ok (PyDict [
          ("total_textos_analisados", PyInt 0);
          ("analises", PyList [])
        ])
  | Raise e =>
      fst (comparar_sentimentos [] g) = Raise e /\
      fst (comparar_sentimentos_resposta [] g) = Raise e
  end /\
  snd (comparar_sentimentos [] g) = snd (inicializar_modelo g).
Proof.
  split; [|exact (executar_como_inicializar (ChComparar []) g)].
  unfold Servidor.comparar_sentimentos, Servidor.comparar_sentimentos_resposta.
  unfold bind, ret. simpl.
  destruct (inicializar_modelo g) as [[m|e] g']; simpl; split; reflexivity.
Qed.

(** X11: a process loads the model at most once, and tries again after a
    load that raised.  After any sequence [cs] of calls
    ([inicializar_modelo] or the tools, returning or raising) from the
    initial state, either every call tried to load the model and
    [pipeline(...)] raised each time: then [classificador] is still [None],
    no pipeline was built and the first message was printed once for each
    call, the second never; or the attempt of call number [n] was the first
    for which [pipeline(...)] returned: then [classificador] holds the
    pipeline it returned, exactly one pipeline was built, and the first
    message was printed [n + 1] times, followed by the second message once.
    Once [classificador] is set, no further call changes the process or
    prints anything. *)
Theorem process_retries_until_loaded (cs : list Chamada) :
  let g := executar_todas cs processo_inicial in
  ((g = apos_falhas (length cs) /\
    forall i : nat, i < length cs ->
      exists e : Excecao, pipeline (apos_falhas (S i)) = Raise e) \/
   (exists (n : nat) (c : Pipeline),
      n < length cs /\
      (forall i : nat, i < n ->
         exists e : Excecao, pipeline (apos_falhas (S i)) = Raise e) /\
      pipeline (apos_falhas (S n)) = Ok c /\
      g = apos_carga n c)) /\
  (forall (c : Pipeline) (cs' : list Chamada),
      classificador g = Some c -> executar_todas cs' g = g).
Proof.
  intros g. split.
  - destruct (executar_todas_apos_falhas cs 0)
      as [[Hg Hf]|(m & novo & Hm & Hf & Hok & Hg)].
    + left. split; [exact Hg|]. intros i Hi. apply Hf. lia.
    + right. exists m, novo. split; [lia|]. split; [|split; assumption].
      intros i Hi. apply Hf. lia.
  - intros c cs' Hc. now apply executar_todas_classificador with (c := c).
Qed.

End Carga.

(** ** The translation table *)

Lemma NoDup_snd_elem_of {A B : Type} (l : list (A * B)) (a1 a2 : A) (b : B) :
  NoDup (l.*2) -> (a1, b) ∈ l -> (a2, b) ∈ l -> a1 = a2.
Proof.
  induction l as [|[a b'] l IH]; simpl; intros Hnd H1 H2.
  - now apply elem_of_nil in H1.
  - apply NoDup_cons in Hnd as [Hnin Hnd].
    apply elem_of_cons in H1 as [H1|H1]; apply elem_of_cons in H2 as [H2|H2].
    + congruence.
    + injection H1 as <- <-. destruct Hnin.
      apply list_elem_of_fmap. now exists (a2, b).
    + injection H2 as <- <-. destruct Hnin.
      apply list_elem_of_fmap. now exists (a1, b).
    + now apply IH.
Qed.

(** X14: the translation can be undone on the labels of the table: two
    labels of [TRADUCAO_EMOCOES] with the same translated name are the same
    label, so that [emocao] determines [emocao_original] for them. *)
Theorem traducao_is_injective_on_table (r1 r2 : Emocao) :
  is_Some (TRADUCAO_EMOCOES !! label r1) ->
  is_Some (TRADUCAO_EMOCOES !! label r2) ->
  traducao r1 = traducao r2 -> label r1 = label r2.
Proof.
  intros [v1 H1] [v2 H2]. unfold traducao, dict_get. rewrite H1, H2. intros <-.
  apply elem_of_map_to_list in H1, H2.
  eapply NoDup_snd_elem_of; [|exact H1|exact H2].
  assert (Hd : bool_decide (NoDup ((map_to_list TRADUCAO_EMOCOES).*2)) = true)
    by (vm_compute; reflexivity).
  now apply bool_decide_eq_true in Hd.
Qed.

(* ===================================================================== *)
(** * The edge cases on concrete classifiers *)
(* ===================================================================== *)

(** Two labels only: the top 3 are the two, best first. *)
Example exemplo_curto :
  exists analises : list PyVal,
    fst (comparar_sentimentos_resposta pipeline_novo Borda.inferir_curto
           Exemplo.py_round
           Exemplo.py_str ["oi"] processo_inicial) =
      Ok (PyDict [("total_textos_analisados", PyInt 1);
                  ("analises", PyList analises)]) /\
    map (fun a => option_map (campos "emocao_original")
                    match campo "top_3_emocoes" a with
                    | Some (PyList es) => Some es
                    | _ => None
                    end) analises =
    [Some [Some (PyStr "joy"); Some (PyStr "neutral")]].
Proof. eexists. split; vm_compute; reflexivity. Qed.

(** A NaN score: three entries, two of them counted. *)
Example exemplo_nan :
  exists resposta : PyVal,
    fst (analisar_sentimento_detalhado_resposta pipeline_novo Borda.inferir_nan
           Exemplo.py_round
           Exemplo.py_str "oi" processo_inicial) = Ok resposta /\
    campo "resumo" resposta =
      Some (PyDict [("emocoes_alta_confianca", PyInt 1);
                    ("emocoes_media_confianca", PyInt 0);
                    ("emocoes_baixa_confianca", PyInt 1)]).
Proof. eexists. split; vm_compute; reflexivity. Qed.

(** A model that cannot be loaded: the tools raise what [pipeline(...)]
    raised, also on the empty list, and each call prints the first message
    again. *)
Example exemplo_carga_falha :
  fst (comparar_sentimentos Borda.pipeline_falha Exemplo.inferir Exemplo.py_round
         Exemplo.py_str Exemplo.json_dumps [] processo_inicial) =
    Raise (ErroExterno "OSError") /\
  executar_todas Borda.pipeline_falha Exemplo.inferir Exemplo.py_round
    Exemplo.py_str Exemplo.json_dumps
    [ChComparar []; ChAnalisar Exemplo.texto 5] processo_inicial =
  {| classificador := None;
     pipelines_criados := 0;
     stdout := ["Carregando modelo GoEmotions... (pode levar alguns segundos)";
                "Carregando modelo GoEmotions... (pode levar alguns segundos)"] |}.
Proof. split; vm_compute; reflexivity. Qed.

(** With a model that loads, the process after the first call is
    [processo_carregado]. *)
Example exemplo_carga :
  apos_falhas 0 = processo_inicial /\
  apos_carga 0 {| pipeline_id := 0 |} = processo_carregado /\
  executar_todas pipeline_novo Exemplo.inferir Exemplo.py_round Exemplo.py_str
    Exemplo.json_dumps [ChComparar []] processo_inicial = processo_carregado.
Proof. repeat split; vm_compute; reflexivity. Qed.

(** Two loads that raise, then one that returns: the third call loads the
    model and the fourth finds it. *)
Lemma process_retries_until_loaded_witness :
  executar_todas Borda.pipeline_instavel Exemplo.inferir Exemplo.py_round
    Exemplo.py_str Exemplo.json_dumps
    [ChInicializar; ChAnalisar Exemplo.texto 5; ChDetalhado Exemplo.texto;
     ChComparar Exemplo.textos] processo_inicial =
    apos_carga 2 {| pipeline_id := 0 |} /\
  classificador (apos_carga 2 {| pipeline_id := 0 |}) =
    Some {| pipeline_id := 0 |} /\
  executar_todas Borda.pipeline_instavel Exemplo.inferir Exemplo.py_round
    Exemplo.py_str Exemplo.json_dumps
    [ChAnalisar Exemplo.texto 1; ChInicializar]
    (apos_carga 2 {| pipeline_id := 0 |}) =
    apos_carga 2 {| pipeline_id := 0 |}.
Proof.
  destruct (process_retries_until_loaded Borda.pipeline_instavel Exemplo.inferir
              Exemplo.py_round Exemplo.py_str Exemplo.json_dumps
              [ChInicializar; ChAnalisar Exemplo.texto 5;
               ChDetalhado Exemplo.texto; ChComparar Exemplo.textos])
    as [_ H].
  assert (Hg : executar_todas Borda.pipeline_instavel Exemplo.inferir
                 Exemplo.py_round Exemplo.py_str Exemplo.json_dumps
                 [ChInicializar; ChAnalisar Exemplo.texto 5;
                  ChDetalhado Exemplo.texto; ChComparar Exemplo.textos]
                 processo_inicial = apos_carga 2 {| pipeline_id := 0 |})
    by (vm_compute; reflexivity).
  rewrite Hg in H.
  split; [exact Hg|]. split; [reflexivity|].
  exact (H {| pipeline_id := 0 |} _ eq_refl).
Defined.

Lemma top_emocoes_prefix_witness :
  Exemplo.inferir Exemplo.texto <> [] /\ (1 <= 2 <= 5)%Z /\
  exists (resposta resposta' : PyVal) (emocoes emocoes' : list PyVal),
    fst (analisar_sentimento_resposta pipeline_novo Exemplo.inferir Exemplo.py_round
           Exemplo.py_str
           Exemplo.texto 2 processo_inicial) = Ok resposta /\
    fst (analisar_sentimento_resposta pipeline_novo Exemplo.inferir Exemplo.py_round
           Exemplo.py_str
           Exemplo.texto 5 processo_carregado) = Ok resposta' /\
    campo "top_emocoes" resposta = Some (PyList emocoes) /\
    campo "top_emocoes" resposta' = Some (PyList emocoes') /\
    emocoes = firstn 2 emocoes'.
Proof.
  split; [discriminate|]. split; [lia|].
  apply (top_emocoes_prefix Exemplo.inferir Exemplo.py_round Exemplo.py_str
           Exemplo.texto 2 5 processo_inicial processo_carregado); [discriminate|lia].
Defined.


Lemma dominant_is_first_entry_witness :
  Exemplo.inferir Exemplo.texto <> [] /\
  fatia_nao_vazia (len (Exemplo.inferir Exemplo.texto)) 5 = true /\
  Forall (fun texto => Exemplo.inferir texto <> []) Exemplo.textos /\
  exists (resposta e0 : PyVal) (resto : list PyVal) (nome : string),
    fst (analisar_sentimento_resposta pipeline_novo Exemplo.inferir Exemplo.py_round
           Exemplo.py_str
           Exemplo.texto 5 processo_inicial) = Ok resposta /\
    campo "top_emocoes" resposta = Some (PyList (e0 :: resto)) /\
    campo "emocao" e0 = Some (PyStr nome) /\
    campo "emocao_dominante" resposta = Some (PyStr nome).
Proof.
  assert (Hf : Forall (fun texto => Exemplo.inferir texto <> []) Exemplo.textos)
    by (repeat constructor; discriminate).
  split; [discriminate|]. split; [reflexivity|]. split; [exact Hf|].
  destruct (dominant_is_first_entry Exemplo.inferir Exemplo.py_round Exemplo.py_str
              Exemplo.texto 5 Exemplo.textos processo_inicial)
    as ((resposta & e0 & resto & nome & rotulo & pct & H1 & H2 & H3 & H4 & _) & _);
    [discriminate|reflexivity|exact Hf|].
  exists resposta, e0, resto, nome. auto.
Defined.

Lemma dominant_agrees_across_tools_witness :
  fatia_nao_vazia (len (Exemplo.inferir Exemplo.texto)) (-3) = true /\
  Forall (fun texto => Exemplo.inferir texto <> []) [Exemplo.texto] /\
  nth_error [Exemplo.texto] 0 = Some Exemplo.texto /\
  exists (r1 r2 : PyVal) (nome : string),
    fst (analisar_sentimento_resposta pipeline_novo Exemplo.inferir Exemplo.py_round
           Exemplo.py_str
           Exemplo.texto (-3) processo_inicial) = Ok r1 /\
    fst (analisar_sentimento_detalhado_resposta pipeline_novo Exemplo.inferir
           Exemplo.py_round
           Exemplo.py_str Exemplo.texto processo_inicial) = Ok r2 /\
    campo "emocao_dominante" r1 = Some (PyStr nome) /\
    campo "emocao_dominante" r2 = Some (PyStr nome).
Proof.
  assert (Hf : Forall (fun texto => Exemplo.inferir texto <> []) [Exemplo.texto])
    by (repeat constructor; discriminate).
  split; [reflexivity|]. split; [exact Hf|]. split; [reflexivity|].
  destruct (dominant_agrees_across_tools Exemplo.inferir Exemplo.py_round Exemplo.py_str
              Exemplo.texto (-3) [Exemplo.texto] 0 processo_inicial processo_inicial
              processo_inicial)
    as (r1 & r2 & r3 & a & analises & nome & rotulo & pct & H1 & H2 & _ & _ & _ &
        H6 & H7 & _); [reflexivity|exact Hf|reflexivity|].
  exists r1, r2, nome. auto.
Defined.

Lemma rankings_agree_across_tools_witness :
  fatia_nao_vazia (len (Exemplo.inferir Exemplo.texto)) 5 = true /\
  Forall (fun texto => Exemplo.inferir texto <> []) [Exemplo.texto] /\
  nth_error [Exemplo.texto] 0 = Some Exemplo.texto /\
  exists (r1 r2 : PyVal) (es1 es2 : list PyVal),
    fst (analisar_sentimento_resposta pipeline_novo Exemplo.inferir Exemplo.py_round
           Exemplo.py_str
           Exemplo.texto 5 processo_inicial) = Ok r1 /\
    fst (analisar_sentimento_detalhado_resposta pipeline_novo Exemplo.inferir
           Exemplo.py_round
           Exemplo.py_str Exemplo.texto processo_inicial) = Ok r2 /\
    campo "top_emocoes" r1 = Some (PyList es1) /\
    campo "todas_emocoes" r2 = Some (PyList es2).
Proof.
  assert (Hf : Forall (fun texto => Exemplo.inferir texto <> []) [Exemplo.texto])
    by (repeat constructor; discriminate).
  split; [reflexivity|]. split; [exact Hf|]. split; [reflexivity|].
  destruct (rankings_agree_across_tools Exemplo.inferir Exemplo.py_round Exemplo.py_str
              Exemplo.texto 5 [Exemplo.texto] 0 processo_inicial processo_inicial
              processo_inicial)
    as (r1 & r2 & r3 & a & analises & es1 & es2 & es3 & H1 & H2 & _ & _ & _ &
        H6 & H7 & _); [reflexivity|exact Hf|reflexivity|].
  exists r1, r2, es1, es2. auto.
Defined.

Lemma nan_scores_are_not_counted_witness :
  Borda.inferir_nan Exemplo.texto <> [] /\
  exists (resposta resumo : PyVal) (emocoes : list PyVal) (alta media baixa : Z),
    fst (analisar_sentimento_detalhado_resposta pipeline_novo Borda.inferir_nan
           Exemplo.py_round
           Exemplo.py_str Exemplo.texto processo_inicial) = Ok resposta /\
    campo "todas_emocoes" resposta = Some (PyList emocoes) /\
    length emocoes = 3 /\
    campo "resumo" resposta = Some resumo /\
    campo "emocoes_alta_confianca" resumo = Some (PyInt alta) /\
    campo "emocoes_media_confianca" resumo = Some (PyInt media) /\
    campo "emocoes_baixa_confianca" resumo = Some (PyInt baixa) /\
    (alta + media + baixa = 2)%Z.
Proof.
  split; [discriminate|].
  destruct (nan_scores_are_not_counted Borda.inferir_nan Exemplo.py_round Exemplo.py_str
              Exemplo.json_dumps Exemplo.texto processo_inicial)
    as (resposta & resumo & emocoes & ord & a & m & b & _ & H1 & H2 & _ & H4 & _ &
        H6 & H7 & H8 & H9 & H10); [discriminate|].
  exists resposta, resumo, emocoes, a, m, b. auto 10.
Defined.

Lemma todas_emocoes_grouped_by_tier_witness :
  contrato (Exemplo.inferir Exemplo.texto) = true /\
  exists (resposta : PyVal) (emocoes : list PyVal),
    fst (analisar_sentimento_detalhado_resposta pipeline_novo Exemplo.inferir
           Exemplo.py_round
           Exemplo.py_str Exemplo.texto processo_inicial) = Ok resposta /\
    campo "todas_emocoes" resposta = Some (PyList emocoes).
Proof.
  split; [reflexivity|].
  destruct (todas_emocoes_grouped_by_tier Exemplo.inferir Exemplo.py_round
              Exemplo.py_str Exemplo.texto processo_inicial)
    as (resposta & resumo & emocoes & a & m & b & H1 & H2 & _); [reflexivity|].
  exists resposta, emocoes. auto.
Defined.

Lemma ties_keep_classifier_order_witness :
  contrato (Exemplo.inferir Exemplo.texto) = true /\
  exists ord : list Emocao,
    StronglySorted (decrescente score) ord /\
    map label (List.filter (fun r => (score r =? 0.07)%float) ord) =
    ["gratitude"; "love"].
Proof.
  split; [reflexivity|].
  destruct (ties_keep_classifier_order Exemplo.inferir Exemplo.py_round Exemplo.py_str
              Exemplo.texto processo_inicial 0.07%float)
    as (resposta & emocoes & ord & _ & _ & _ & Hs & Hf); [reflexivity|].
  exists ord. split; [exact Hs|]. rewrite Hf. reflexivity.
Defined.

Lemma analise_depends_on_its_text_only_witness :
  Forall (fun texto => Exemplo.inferir texto <> []) Exemplo.textos /\
  Forall (fun texto => Exemplo.inferir texto <> []) [Exemplo.texto] /\
  nth_error (Exemplo.texto :: Exemplo.textos) 0 = Some Exemplo.texto /\
  exists (a a' : PyVal),
    campo "texto_numero" a = Some (PyInt 1) /\
    campo "texto_numero" a' = Some (PyInt 3) /\
    campo "texto" a = Some (PyStr Exemplo.texto) /\
    campo "top_3_emocoes" a = campo "top_3_emocoes" a'.
Proof.
  assert (Hf : Forall (fun texto => Exemplo.inferir texto <> []) Exemplo.textos)
    by (repeat constructor; discriminate).
  assert (Hf1 : Forall (fun texto => Exemplo.inferir texto <> []) [Exemplo.texto])
    by (repeat constructor; discriminate).
  assert (Hf2 : Forall (fun texto => Exemplo.inferir texto <> [])
                  ["a"; "b"; Exemplo.texto])
    by (repeat constructor; discriminate).
  split; [exact Hf|]. split; [exact Hf1|]. split; [reflexivity|].
  destruct (analise_depends_on_its_text_only Exemplo.inferir Exemplo.py_round
              Exemplo.py_str [Exemplo.texto] ["a"; "b"; Exemplo.texto] 0 2 Exemplo.texto
              processo_inicial processo_inicial)
    as (r & r' & a & a' & analises & analises' & _ & _ & _ & _ & _ & _ &
        H7 & H8 & H9 & H10); [exact Hf1|exact Hf2|reflexivity|reflexivity|].
  exists a, a'. split; [exact H7|]. split; [exact H8|]. split; [exact H9|].
  apply H10. discriminate.
Defined.

Lemma traducao_is_injective_on_table_witness :
  is_Some (TRADUCAO_EMOCOES !! "grief") /\
  traducao {| label := "grief"; score := 0.9 |} =
  traducao {| label := "grief"; score := 0.1 |} /\
  label {| label := "grief"; score := 0.9 |} = label {| label := "grief"; score := 0.1 |}.
Proof.
  assert (Hs : is_Some (TRADUCAO_EMOCOES !! "grief")) by (eexists; reflexivity).
  split; [exact Hs|]. split; [reflexivity|].
  apply (traducao_is_injective_on_table {| label := "grief"; score := 0.9 |}
           {| label := "grief"; score := 0.1 |}); [exact Hs|exact Hs|reflexivity].
Defined.

Lemma top_3_emocoes_of_short_answers_witness :
  Forall (fun texto => Borda.inferir_curto texto <> []) [Exemplo.texto] /\
  exists (analises : list PyVal) (a : PyVal) (emocoes : list PyVal),
    nth_error analises 0 = Some a /\
    campo "top_3_emocoes" a = Some (PyList emocoes) /\
    len emocoes = 2%Z.
Proof.
  assert (Hf : Forall (fun texto => Borda.inferir_curto texto <> []) [Exemplo.texto])
    by (repeat constructor; discriminate).
  split; [exact Hf|].
  destruct (top_3_emocoes_of_short_answers Borda.inferir_curto Exemplo.py_round
              Exemplo.py_str Exemplo.json_dumps [Exemplo.texto] processo_inicial)
    as (resposta & analises & _ & _ & _ & Hnth); [exact Hf|].
  destruct (Hnth 0%nat Exemplo.texto eq_refl) as (a & emocoes & Ha & He & Hl).
  exists analises, a, emocoes. auto.
Defined.
